(** * OpenRouter free-model monitor: model of the worker and its properties

    The development embeds the worker's monitoring engine
    ([src/worker/monitor.js], its later revision with settings-backed
    notification targets, and the scheduled / fetch handlers of
    [src/worker/index.js]) and proves the properties stated about it.

    Layout: JavaScript values and the builtins the code calls
    ([parseFloat], [parseInt], [endsWith]); the catalog data model; the
    free-item classifier; the change detector; an effect monad for the
    key-value store, the clock, outbound HTTP and the console; the monitor
    class in both revisions; the worker handlers; then the theorems. *)

From Stdlib Require Import ZArith NArith Ascii String List Bool Lia.
From stdpp Require Import base option list strings gmap pretty.

Local Open Scope string_scope.
Local Open Scope Z_scope.

(** ** JavaScript numbers and values *)

(** A JavaScript number as the code observes it.  [Dec neg m e] stands for
    the double nearest to [±m·10^e]: numbers reach the code as decimal
    literals (JSON text, or the argument of [parseFloat]) and the only
    tests applied to them are truthiness and [=== 0], both decided by
    whether that literal rounds to zero. *)
Inductive number : Type :=
| NaN
| Infinity (neg : bool)
| Dec (neg : bool) (m : N) (e : Z).

(** [m·10^e] rounds to (plus or minus) zero in binary64 exactly when it is
    at most half the least subnormal, [2^-1075]; the tie goes to the even
    neighbour, which is zero. *)
Definition roundsToZero (m : N) (e : Z) : bool :=
  N.eqb m 0 || (Z.ltb e 0 && Z.leb (Z.of_N m * 2 ^ 1075) (10 ^ (- e))).

(** [x === 0] for a number [x] (both zeros compare equal to [0]). *)
Definition isZero (x : number) : bool :=
  match x with
  | Dec _ m e => roundsToZero m e
  | NaN | Infinity _ => false
  end.

(** The values a JSON field the code reads can hold. *)
Inductive JsValue : Type :=
| JsUndefined
| JsNull
| JsNum (x : number)
| JsStr (s : string).

(** ToBoolean. *)
Definition truthy (v : JsValue) : bool :=
  match v with
  | JsUndefined | JsNull => false
  | JsNum NaN => false
  | JsNum (Infinity _) => true
  | JsNum (Dec _ m e) => negb (roundsToZero m e)
  | JsStr s => negb (String.eqb s "")
  end.

(** [a || b]. *)
Definition jsOr (a b : JsValue) : JsValue := if truthy a then a else b.

(** ** String builtins *)

(** [s.endsWith(suffix)]: the last [length suffix] code units of [s] are
    compared with [suffix]; a longer [suffix] never matches. *)
Definition endsWith (s suffix : string) : bool :=
  let n := String.length s in
  let k := String.length suffix in
  if Nat.leb k n then String.eqb (substring (n - k) k s) suffix else false.

Definition isStrWhiteSpaceChar (c : ascii) : bool :=
  let n := nat_of_ascii c in
  Nat.eqb n 9 || Nat.eqb n 10 || Nat.eqb n 11 || Nat.eqb n 12
  || Nat.eqb n 13 || Nat.eqb n 32.

Definition digitValue (c : ascii) : option N :=
  let n := N_of_ascii c in
  if N.leb 48 n && N.leb n 57 then Some (n - 48)%N else None.

Fixpoint skipWhiteSpace (s : list ascii) : list ascii :=
  match s with
  | c :: s' => if isStrWhiteSpaceChar c then skipWhiteSpace s' else s
  | [] => []
  end.

(** Reads the longest run of decimal digits at the head of [s], continuing
    the value [acc]; returns the value, the number of digits read and the
    rest of the input. *)
Fixpoint readDigits (acc : N) (cnt : nat) (s : list ascii)
  : N * nat * list ascii :=
  match s with
  | c :: s' =>
      match digitValue c with
      | Some d => readDigits (acc * 10 + d)%N (S cnt) s'
      | None => (acc, cnt, s)
      end
  | [] => (acc, cnt, [])
  end.

(** Sign prefix: [(negative, rest)]. *)
Definition readSign (s : list ascii) : bool * list ascii :=
  match s with
  | "-"%char :: r => (true, r)
  | "+"%char :: r => (false, r)
  | _ => (false, s)
  end.

(** ExponentPart, consumed only when at least one digit follows the
    indicator and its optional sign; otherwise the exponent is 0. *)
Definition readExponent (s : list ascii) : Z :=
  match s with
  | c :: s1 =>
      if Ascii.eqb c "e" || Ascii.eqb c "E" then
        let '(neg, s2) := readSign s1 in
        let '(v, n, _) := readDigits 0 0 s2 in
        if Nat.eqb n 0 then 0
        else if neg then - Z.of_N v else Z.of_N v
      else 0
  | [] => 0
  end.

(** The longest prefix that is a StrUnsignedDecimalLiteral other than
    [Infinity], as (mantissa, decimal exponent): [digits], [digits.],
    [digits.digits], [.digits], each with an optional exponent part. *)
Definition readDecimal (s : list ascii) : option (N * Z) :=
  let '(ip, ni, s1) := readDigits 0 0 s in
  match s1 with
  | "."%char :: s2 =>
      let '(m, nf, s3) := readDigits ip 0 s2 in
      if Nat.eqb ni 0 && Nat.eqb nf 0 then None
      else Some (m, readExponent s3 - Z.of_nat nf)
  | _ => if Nat.eqb ni 0 then None else Some (ip, readExponent s1)
  end.

Fixpoint startsWithChars (p s : list ascii) : bool :=
  match p, s with
  | [], _ => true
  | a :: p', b :: s' => Ascii.eqb a b && startsWithChars p' s'
  | _ :: _, [] => false
  end.

(** [parseFloat] applied to a string: leading white space is dropped, the
    longest prefix that is a decimal literal is read, and the result is
    [NaN] when there is none.  Trailing characters are ignored.  Of the
    white-space characters only those of the ASCII range are recognised. *)
Definition parseFloatString (input : string) : number :=
  let s := skipWhiteSpace (list_ascii_of_string input) in
  let '(neg, s1) := readSign s in
  if startsWithChars (list_ascii_of_string "Infinity") s1 then Infinity neg
  else match readDecimal s1 with
       | Some (m, e) => Dec neg m e
       | None => NaN
       end.

(** [parseFloat(v)]: the argument is converted with ToString first.  For a
    number that conversion prints a literal that reads back as the same
    number (negative zero prints as [0]); [undefined] and [null] print as
    words with no numeric prefix. *)
Definition parseFloat (v : JsValue) : number :=
  match v with
  | JsStr s => parseFloatString s
  | JsNum (Dec neg m e) => if roundsToZero m e then Dec false 0 0 else Dec neg m e
  | JsNum x => x
  | JsUndefined | JsNull => NaN
  end.

(** [parseInt(s, 10)] on a string: white space, sign, then the longest run
    of digits; [None] is [NaN]. *)
Definition parseInt10 (input : string) : option Z :=
  let s := skipWhiteSpace (list_ascii_of_string input) in
  let '(neg, s1) := readSign s in
  let '(v, n, _) := readDigits 0 0 s1 in
  if Nat.eqb n 0 then None
  else Some (if neg then - Z.of_N v else Z.of_N v).

(** ** Catalog data model *)

(** The pricing record of a catalog entry; only the two fields the
    classifier reads are kept. *)
Record Pricing : Type := mkPricing {
  prompt : JsValue;
  completion : JsValue;
}.

(** One entry of the catalog response.  [pricing = None] is an absent or
    [null] pricing record. *)
Record CatalogItem : Type := mkItem {
  id : string;
  name : option string;
  pricing : option Pricing;
  context_length : option Z;
}.

(** ** Free-item classifier (monitor.js, identifyFreeModels) *)

(** [parseFloat(field || '0')], the reading of one pricing field. *)
Definition priceOf (field : JsValue) : number :=
  parseFloat (jsOr field (JsStr "0")).

(** The callback passed to [models.filter]. *)
Definition isFree (model : CatalogItem) : bool :=
  if truthy (JsStr (id model)) && endsWith (id model) ":free" then true
  else
    match pricing model with
    | Some p =>
        let promptPrice := priceOf (prompt p) in
        let completionPrice := priceOf (completion p) in
        if isZero promptPrice && isZero completionPrice then true
        else false
    | None => false
    end.

Definition identifyFreeModels (models : list CatalogItem) : list CatalogItem :=
  List.filter isFree models.

(** The three rules of the classifier contract, first match wins. *)
Definition isFreeRules (item : CatalogItem) : bool :=
  if endsWith (id item) ":free" then true
  else if match pricing item with
          | Some p => isZero (priceOf (prompt p)) && isZero (priceOf (completion p))
          | None => false
          end
  then true
  else false.

(** ** Change detector (monitor.js, detectAndNotifyChanges) *)

(** [new Set(models.map(m => m.id))]. *)
Definition idSet (models : list CatalogItem) : gset string :=
  list_to_set (id <$> models).

(** [currentFreeModels.filter(model => !previousIds.has(model.id))]. *)
Definition addedModels (previousFreeModels currentFreeModels : list CatalogItem)
  : list CatalogItem :=
  let previousIds := idSet previousFreeModels in
  filter (λ model, id model ∉ previousIds) currentFreeModels.

(** [previousFreeModels.filter(model => !currentIds.has(model.id))]. *)
Definition removedModels (previousFreeModels currentFreeModels : list CatalogItem)
  : list CatalogItem :=
  let currentIds := idSet currentFreeModels in
  filter (λ model, id model ∉ currentIds) previousFreeModels.

(** ** Documents held in the key-value store *)

(** The object written under [models_data]. *)
Record Snapshot : Type := mkSnapshot {
  timestamp : Z;
  totalModels : nat;
  freeModels : list CatalogItem;
  allModels : list CatalogItem;
}.

(** The object written under [app_settings] by the settings endpoint. *)
Record Settings : Type := mkSettings {
  monitorInterval : option Z;
  barkBaseUrl : option string;
}.

(** The store holds strings.  A stored string is represented by what it
    denotes: the JSON text of a snapshot or of a settings object, the
    ISO-8601 text of an instant (milliseconds since the epoch), or any other
    text, which is neither valid JSON nor a date. *)
Inductive KvValue : Type :=
| KvSnapshot (s : Snapshot)
| KvSettings (s : Settings)
| KvTime (t : Z)
| KvText (s : string).

(** Truthiness of a stored string: only the empty text is falsy. *)
Definition kvTruthy (v : KvValue) : bool :=
  match v with
  | KvText s => negb (String.eqb s "")
  | _ => true
  end.

(** [Date.parse(value)]; [None] is [NaN]. *)
Definition dateParse (v : KvValue) : option Z :=
  match v with
  | KvTime t => Some t
  | _ => None
  end.

(** ** Platform, environment and effects *)

(** Worker bindings read from [env]. *)
Record Env : Type := mkEnv {
  BARK_API_URL : option string;
  OPENROUTER_API_KEY : option string;
  MONITOR_INTERVAL_MINUTES : option string;
}.

(** What an outbound [fetch] yields: a rejected promise or a response. *)
Inductive HttpReply (B : Type) : Type :=
| NetworkError (message : string)
| Reply (status : Z) (statusText : string) (body : B).
Arguments NetworkError {B} message.
Arguments Reply {B} status statusText body.

(** [response.ok]. *)
Definition statusOk (status : Z) : bool := Z.leb 200 status && Z.leb status 299.

(** Body of the catalog response as [response.json()] sees it: text that is
    not JSON, or an object whose [data] field may be missing. *)
Inductive CatalogBody : Type :=
| InvalidJson (message : string)
| JsonObject (data : option (list CatalogItem)).

(** One call to the notification target: the URL prefix placed before the
    encoded title, then title, body and category. *)
Record BarkRequest : Type := mkBarkRequest {
  target : string;
  title : string;
  content : string;
  category : string;
}.

(** The behaviour of everything outside the worker during one invocation. *)
Record Platform : Type := mkPlatform {
  catalogReply : HttpReply CatalogBody;
  barkReply : BarkRequest → HttpReply unit;
  kvGetError : string → option string;
  kvPutError : string → option string;
  clock : nat → Z;
}.

Inductive ConsoleLevel : Type := Log | Warn | Error.

(** Observable effects, recorded newest first. *)
Inductive Event : Type :=
| EvConsole (level : ConsoleLevel) (label : string)
| EvKvGet (key : string)
| EvKvPut (key : string) (value : KvValue)
| EvFetchCatalog (authorized : bool)
| EvFetchBark (request : BarkRequest)
| EvDetect (previousFreeModels currentFreeModels : list CatalogItem).

(** The state one invocation runs in: the store, the instance field
    [this.barkUrl] of the monitor object, the number of clock readings taken
    so far and the effects so far. *)
Record State : Type := mkState {
  kv : gmap string KvValue;
  barkUrl : option string;
  ticks : nat;
  trace : list Event;
}.

Inductive Outcome (A : Type) : Type :=
| Returned (a : A)
| Thrown (message : string).
Arguments Returned {A} a.
Arguments Thrown {A} message.

(** Computations: state passing with exceptions; a thrown error carries its
    [message]. *)
Definition M (A : Type) : Type := State → Outcome A * State.

Definition ret {A} (a : A) : M A := λ st, (Returned a, st).

Definition bind {A B} (m : M A) (k : A → M B) : M B :=
  λ st, match m st with
        | (Returned a, st') => k a st'
        | (Thrown e, st') => (Thrown e, st')
        end.

Definition throw {A} (message : string) : M A := λ st, (Thrown message, st).

(** [try { body } catch (error) { handler }]. *)
Definition tryCatch {A} (body : M A) (handler : string → M A) : M A :=
  λ st, match body st with
        | (Returned a, st') => (Returned a, st')
        | (Thrown e, st') => handler e st'
        end.

(** [try { body } finally { cleanup }]. *)
Definition tryFinally {A} (body : M A) (cleanup : M unit) : M A :=
  λ st, match body st with
        | (r, st') =>
            match cleanup st' with
            | (Returned _, st'') => (r, st'')
            | (Thrown e, st'') => (Thrown e, st'')
            end
        end.

(** Runs [m] and hands back how it settled, as [Promise.all] needs. *)
Definition settle {A} (m : M A) : M (Outcome A) :=
  λ st, match m st with
        | (r, st') => (Returned r, st')
        end.

Definition unsettle {A} (r : Outcome A) : M A :=
  match r with
  | Returned a => ret a
  | Thrown e => throw e
  end.

Declare Scope monitor_scope.
Delimit Scope monitor_scope with monitor.
Notation "'let*' x ':=' m 'in' k" := (bind m (λ x, k))
  (at level 10, x name, m at level 200, k at level 200, only parsing)
  : monitor_scope.
Notation "'do' m 'then' k" := (bind m (λ _, k))
  (at level 10, m at level 200, k at level 200, only parsing)
  : monitor_scope.
Local Open Scope monitor_scope.

Definition emit (e : Event) : M unit :=
  λ st, (Returned tt,
         {| kv := kv st; barkUrl := barkUrl st; ticks := ticks st;
            trace := e :: trace st |}).

Definition console (level : ConsoleLevel) (label : string) : M unit :=
  emit (EvConsole level label).

Definition getBarkUrl : M (option string) := λ st, (Returned (barkUrl st), st).

Definition setBarkUrl (url : option string) : M unit :=
  λ st, (Returned tt,
         {| kv := kv st; barkUrl := url; ticks := ticks st; trace := trace st |}).

(** [if (url)] for an optional string. *)
Definition configured (url : option string) : bool :=
  match url with
  | Some s => negb (String.eqb s "")
  | None => false
  end.

Section Effects.
Context (platform : Platform).

(** [Date.now()] and [new Date()]. *)
Definition dateNow : M Z :=
  λ st, (Returned (clock platform (ticks st)),
         {| kv := kv st; barkUrl := barkUrl st; ticks := S (ticks st);
            trace := trace st |}).

(** [kv.get(key)]. *)
Definition kvGet (key : string) : M (option KvValue) :=
  do emit (EvKvGet key) then
  match kvGetError platform key with
  | Some message => throw message
  | None => λ st, (Returned (kv st !! key), st)
  end.

(** [kv.put(key, value)]; the event records a write that took place. *)
Definition kvPut (key : string) (value : KvValue) : M unit :=
  match kvPutError platform key with
  | Some message => throw message
  | None =>
      λ st, (Returned tt,
             {| kv := <[key := value]> (kv st); barkUrl := barkUrl st;
                ticks := ticks st;
                trace := EvKvPut key value :: trace st |})
  end.

(** [fetch(openrouterApiUrl, ...)]: the response, or a rejection. *)
Definition fetchCatalog (authorized : bool) : M (Z * string * CatalogBody) :=
  do emit (EvFetchCatalog authorized) then
  match catalogReply platform with
  | NetworkError message => throw message
  | Reply status statusText body => ret (status, statusText, body)
  end.

(** [fetch(url, ...)] for a notification URL. *)
Definition fetchBark (request : BarkRequest) : M (Z * string) :=
  do emit (EvFetchBark request) then
  match barkReply platform request with
  | NetworkError message => throw message
  | Reply status statusText _ => ret (status, statusText)
  end.
End Effects.

(** ** Responses *)

(** The JSON payloads of [runMonitoring], the plain-text error of the fetch
    handler, and whatever the web interface serves (not interpreted). *)
Inductive ResponseBody : Type :=
| RunSucceeded (total free : nat) (at_ : Z)
| RunFailed (error : string) (at_ : Z)
| PlainText (text : string)
| WebContent.

Record Response : Type := mkResponse {
  status : Z;
  body : ResponseBody;
}.

(** The [success] field of a run result, when the response carries one. *)
Definition success (r : Response) : option bool :=
  match body r with
  | RunSucceeded _ _ _ => Some true
  | RunFailed _ _ => Some false
  | PlainText _ | WebContent => None
  end.

(** [JSON.parse] of a stored string. *)
Definition jsonParse (v : KvValue) : M KvValue :=
  match v with
  | KvSnapshot _ | KvSettings _ => ret v
  | KvTime _ | KvText _ => throw "Unexpected token in JSON"
  end.

(** [model.name || model.id]. *)
Definition displayName (model : CatalogItem) : string :=
  match name model with
  | Some n => if String.eqb n "" then id model else n
  | None => id model
  end.

(** ** The monitor class: methods common to both revisions *)

Module Engine.
Section Engine.
Context (env : Env) (platform : Platform).
Context (sendBarkNotification : string → string → string → M unit).
Context (sendChangeNotification : list CatalogItem → list CatalogItem → M unit).

(** The constructor: [this.barkUrl = env.BARK_API_URL]. *)
Definition newModelMonitor : M unit := setBarkUrl (BARK_API_URL env).

Definition fetchOpenRouterModels : M (list CatalogItem) :=
  let* response := fetchCatalog platform (configured (OPENROUTER_API_KEY env)) in
  let '(status, statusText, body) := response in
  if negb (statusOk status) then
    throw ("OpenRouter API error: " ++ pretty status ++ " " ++ statusText)
  else
    match body with
    | InvalidJson message => throw message
    | JsonObject data => ret (default [] data)
    end.

Definition getPreviousModelsData : M (option KvValue) :=
  tryCatch
    (let* data := kvGet platform "models_data" in
     match data with
     | Some raw =>
         if kvTruthy raw then
           let* parsed := jsonParse raw in
           ret (Some parsed)
         else ret None
     | None => ret None
     end)
    (λ error,
       do console Error "Error retrieving previous models data:" then
       ret None).

Definition storeModelsData (data : Snapshot) : M unit :=
  tryCatch
    (do kvPut platform "models_data" (KvSnapshot data) then
     kvPut platform "last_update" (KvTime (timestamp data)))
    (λ error,
       do console Error "Error storing models data:" then
       throw error).

(** The [EvDetect] event marks the entry of the method; it stands for no
    statement of the source. *)
Definition detectAndNotifyChanges
    (previousFreeModels currentFreeModels : list CatalogItem) : M unit :=
  do emit (EvDetect previousFreeModels currentFreeModels) then
  let added := addedModels previousFreeModels currentFreeModels in
  let removed := removedModels previousFreeModels currentFreeModels in
  if Nat.ltb 0 (length added) || Nat.ltb 0 (length removed) then
    sendChangeNotification added removed
  else ret tt.

(** [previousData && previousData.freeModels]. *)
Definition previousFree (previousData : option KvValue)
  : option (list CatalogItem) :=
  match previousData with
  | Some (KvSnapshot s) => Some (freeModels s)
  | _ => None
  end.

Definition runMonitoring : M Response :=
  tryCatch
    (do console Log "Starting OpenRouter models monitoring..." then
     let* currentModels := fetchOpenRouterModels in
     if Nat.eqb (length currentModels) 0 then
       throw "No models received from OpenRouter API"
     else
       let* previousData := getPreviousModelsData in
       let currentFreeModels := identifyFreeModels currentModels in
       let* stamp := dateNow platform in
       do storeModelsData {| timestamp := stamp;
                             totalModels := length currentModels;
                             freeModels := currentFreeModels;
                             allModels := currentModels |} then
       do match previousFree previousData with
          | Some previousFreeModels =>
              detectAndNotifyChanges previousFreeModels currentFreeModels
          | None => ret tt
          end then
       do console Log "Monitoring complete." then
       let* finished := dateNow platform in
       ret {| status := 200;
              body := RunSucceeded (length currentModels)
                        (length currentFreeModels) finished |})
    (λ error,
       do console Error "Monitoring error:" then
       let* url := getBarkUrl in
       do (if configured url then
             sendBarkNotification "OpenRouter Monitor Error"
               ("Monitoring failed: " ++ error) "error"
           else ret tt) then
       let* failed := dateNow platform in
       ret {| status := 500; body := RunFailed error failed |}).
End Engine.
End Engine.

(** ** The monitor class as in src/worker/monitor.js *)

Module Original.
Section Original.
Context (env : Env) (platform : Platform).

Definition sendBarkNotification (title body category : string) : M unit :=
  let* url := getBarkUrl in
  match url with
  | Some barkUrl =>
      if String.eqb barkUrl "" then ret tt
      else
        tryCatch
          (let* response :=
             fetchBark platform
               {| target := barkUrl; title := title;
                  content := body; category := category |} in
           if negb (statusOk response.1) then
             console Error "Bark notification failed:"
           else console Log "Bark notification sent successfully")
          (λ error, console Error "Error sending Bark notification:")
  | None => ret tt
  end.

Definition changeMessage (added removed : list CatalogItem) : string :=
  let message := "OpenRouter Free Models Update:\n\n" in
  let message :=
    if Nat.ltb 0 (length added) then
      message ++ "✅ Added (" ++ pretty (length added) ++ "):\n"
      ++ String.concat "" (map (λ model, "• " ++ displayName model ++ "\n") added)
      ++ "\n"
    else message in
  if Nat.ltb 0 (length removed) then
    message ++ "❌ Removed (" ++ pretty (length removed) ++ "):\n"
    ++ String.concat "" (map (λ model, "• " ++ displayName model ++ "\n") removed)
  else message.

Definition sendChangeNotification (added removed : list CatalogItem) : M unit :=
  let* url := getBarkUrl in
  if negb (configured url) then
    console Log "Bark URL not configured, skipping notification"
  else
    sendBarkNotification "Free Models Changed" (changeMessage added removed)
      "update".

Definition runMonitoring : M Response :=
  Engine.runMonitoring env platform sendBarkNotification sendChangeNotification.
End Original.
End Original.

(** ** The monitor class in its later revision

    The notification target may also come from the stored settings, and
    [sendBarkNotification] rethrows a failed delivery. *)

Module Revised.
Section Revised.
Context (env : Env) (platform : Platform).

Definition getBarkUrlFromSettings : M (option string) :=
  tryCatch
    (let* settings := kvGet platform "app_settings" in
     match settings with
     | Some raw =>
         if kvTruthy raw then
           let* parsedSettings := jsonParse raw in
           ret (match parsedSettings with
                | KvSettings s =>
                    if configured (barkBaseUrl s) then barkBaseUrl s else None
                | _ => None
                end)
         else ret None
     | None => ret None
     end)
    (λ error,
       do console Error "Error getting Bark URL from settings:" then
       ret None).

Definition sendBarkNotification (title body category : string) : M unit :=
  let* url := getBarkUrl in
  match url with
  | Some barkUrl =>
      if String.eqb barkUrl "" then ret tt
      else
        tryCatch
          (let baseUrl :=
             if endsWith barkUrl "/" then barkUrl else barkUrl ++ "/" in
           let* response :=
             fetchBark platform
               {| target := baseUrl; title := title;
                  content := body; category := category |} in
           if negb (statusOk response.1) then
             do console Error "Bark notification failed:" then
             throw ("Bark 推送失败: " ++ pretty response.1 ++ " " ++ response.2)
           else console Log "Bark notification sent successfully")
          (λ error,
             do console Error "Error sending Bark notification:" then
             throw error)
  | None => ret tt
  end.

Definition changeContent (added removed : list CatalogItem) : string :=
  let addedNames := map displayName added in
  let removedNames := map displayName removed in
  let parts :=
    app
      (if Nat.ltb 0 (length addedNames)
       then ["新增免费模型：" ++ String.concat "," addedNames] else [])
      (if Nat.ltb 0 (length removedNames)
       then ["失效免费模型：" ++ String.concat "," removedNames] else []) in
  String.concat "；" parts.

Definition sendChangeNotification (added removed : list CatalogItem) : M unit :=
  let* fromEnv := getBarkUrl in
  let* barkUrl := (if configured fromEnv then ret fromEnv
                   else getBarkUrlFromSettings) in
  if negb (configured barkUrl) then
    console Log "Bark URL not configured, skipping notification"
  else
    let* originalBarkUrl := getBarkUrl in
    do setBarkUrl barkUrl then
    tryFinally
      (sendBarkNotification "OpenRouter免费模型更新"
         (changeContent added removed) "update")
      (setBarkUrl originalBarkUrl).

Definition runMonitoring : M Response :=
  Engine.runMonitoring env platform sendBarkNotification sendChangeNotification.
End Revised.
End Revised.

(** ** The worker (src/worker/index.js) *)

(** The methods of the web interface the fetch handler dispatches to; they
    are taken as given. *)
Inductive WebCall : Type :=
| GetModelsApi
| GetFreeModelsApi
| GetStatus
| HandleSettings
| TestBarkNotification
| ServeWeb (path : string).

(** [s.startsWith(p)]. *)
Definition startsWith (s p : string) : bool :=
  startsWithChars (list_ascii_of_string p) (list_ascii_of_string s).

Module Worker.
Section Worker.
Context (env : Env) (platform : Platform).
Context (webInterface : WebCall → M Response).

(** The interval taken from [env.MONITOR_INTERVAL_MINUTES], when it is set
    and [parseInt] reads a number from it. *)
Definition envInterval (intervalMinutes : Z) : Z :=
  match MONITOR_INTERVAL_MINUTES env with
  | Some raw =>
      if String.eqb raw "" then intervalMinutes
      else match parseInt10 raw with
           | Some envInterval => envInterval
           | None => intervalMinutes
           end
  | None => intervalMinutes
  end.

(** The interval taken from the stored settings; [parseInt] of the stored
    integer is that integer, and a stored [0] is falsy. *)
Definition settingsInterval (settingsRaw : option KvValue) (intervalMinutes : Z)
  : M Z :=
  match settingsRaw with
  | Some raw =>
      if kvTruthy raw then
        tryCatch
          (let* settings := jsonParse raw in
           ret (match settings with
                | KvSettings s =>
                    match monitorInterval s with
                    | Some parsedInterval =>
                        if Z.eqb parsedInterval 0 then intervalMinutes
                        else parsedInterval
                    | None => intervalMinutes
                    end
                | _ => intervalMinutes
                end))
          (λ error,
             do console Warn
                  "Failed to parse stored settings for monitor interval:" then
             ret intervalMinutes)
      else ret intervalMinutes
  | None => ret intervalMinutes
  end.

(** [Math.min(Math.max(intervalMinutes, 1), 60)]. *)
Definition clampInterval (intervalMinutes : Z) : Z :=
  Z.min (Z.max intervalMinutes 1) 60.

(** One iteration of the loop over [[lastTriggerRaw, lastUpdateRaw]];
    [lastRunTimestamp] is [None] while it is still [undefined]. *)
Definition lastRunStep (lastRunTimestamp : option Z) (value : option KvValue)
  : option Z :=
  match value with
  | Some raw =>
      if kvTruthy raw then
        match dateParse raw with
        | Some parsed =>
            match lastRunTimestamp with
            | None => Some parsed
            | Some t =>
                if Z.eqb t 0 || Z.ltb t parsed then Some parsed
                else lastRunTimestamp
            end
        | None => lastRunTimestamp
        end
      else lastRunTimestamp
  | None => lastRunTimestamp
  end.

Definition lastRunOf (values : list (option KvValue)) : option Z :=
  fold_left lastRunStep values None.

(** The test guarding the early [return]:
    [lastRunTimestamp && now - lastRunTimestamp < intervalMs]. *)
Definition throttled (now : Z) (lastRunTimestamp : option Z) (intervalMs : Z)
  : bool :=
  match lastRunTimestamp with
  | Some t =>
      if Z.eqb t 0 then false
      else
        let elapsed := now - t in
        Z.ltb elapsed intervalMs
  | None => false
  end.

Definition scheduled : M unit :=
  tryCatch
    (let intervalMinutes := envInterval 5 in
     let* settingsRaw := kvGet platform "app_settings" in
     let* intervalMinutes := settingsInterval settingsRaw intervalMinutes in
     let intervalMinutes := clampInterval intervalMinutes in
     let intervalMs := intervalMinutes * 60 * 1000 in
     let* triggerRead := settle (kvGet platform "last_monitor_trigger") in
     let* updateRead := settle (kvGet platform "last_update") in
     let* lastTriggerRaw := unsettle triggerRead in
     let* lastUpdateRaw := unsettle updateRead in
     let lastRunTimestamp := lastRunOf [lastTriggerRaw; lastUpdateRaw] in
     let* now := dateNow platform in
     if throttled now lastRunTimestamp intervalMs then
       console Log "Skipping scheduled monitoring run."
     else
       do kvPut platform "last_monitor_trigger" (KvTime now) then
       do Engine.newModelMonitor env then
       let* response := Revised.runMonitoring env platform in
       if negb (statusOk (status response)) then
         console Error "Scheduled monitoring run returned status"
       else ret tt)
    (λ error, console Error "Scheduled monitoring error:").

Definition fetch (path : string) : M Response :=
  tryCatch
    (do Engine.newModelMonitor env then
     if String.eqb path "/api/models" then webInterface GetModelsApi
     else if String.eqb path "/api/free-models" then
       webInterface GetFreeModelsApi
     else if String.eqb path "/api/monitor/run" then
       Revised.runMonitoring env platform
     else if String.eqb path "/api/status" then webInterface GetStatus
     else if String.eqb path "/api/settings" then webInterface HandleSettings
     else if String.eqb path "/api/test/bark" then
       webInterface TestBarkNotification
     else if startsWith path "/api/" then
       ret {| status := 404; body := PlainText "API endpoint not found" |}
     else webInterface (ServeWeb path))
    (λ error,
       do console Error "Worker error:" then
       ret {| status := 500;
              body := PlainText ("Internal server error: " ++ error) |}).
End Worker.
End Worker.

(** ** Reference definitions for the throttle contract *)

(** The later of two optional instants; an absent one is ignored. *)
Definition latest (a b : option Z) : option Z :=
  match a, b with
  | Some x, Some y => Some (Z.max x y)
  | Some x, None => Some x
  | None, Some y => Some y
  | None, None => None
  end.

(** [shouldRun] as the throttle contract words it. *)
Definition shouldRun (now : Z) (lastTrigger lastUpdate : option Z)
    (configuredIntervalMinutes : Z) : bool :=
  let intervalMinutes := Z.max 1 (Z.min 60 configuredIntervalMinutes) in
  match latest lastTrigger lastUpdate with
  | None => true
  | Some lastRun => Z.leb (intervalMinutes * 60000) (now - lastRun)
  end.

(** ** Reference definitions for the change detector *)

(** Whether some item of [items] carries the identifier [i]. *)
Definition occursIn (i : string) (items : list CatalogItem) : bool :=
  existsb (λ item, String.eqb (id item) i) items.

(** The diff as the contract words it: the items of one sequence whose
    identifier occurs in no item of the other, in source order. *)
Definition diffReference (A B : list CatalogItem)
  : list CatalogItem * list CatalogItem :=
  (List.filter (λ b, negb (occursIn (id b) A)) B,
   List.filter (λ a, negb (occursIn (id a) B)) A).

(** ** Describing the effects of a computation *)

(** The store after the writes recorded in [evs] (newest first). *)
Definition replay (evs : list Event) (store : gmap string KvValue)
  : gmap string KvValue :=
  foldr (λ e m, match e with
                | EvKvPut key value => <[key := value]> m
                | _ => m
                end) store evs.

(** [emits P m]: from any state, [m] adds to the trace only events
    satisfying [P], and changes the store only by the writes among them. *)
Definition emits {A} (P : Event → Prop) (m : M A) : Prop :=
  ∀ st, ∃ evs,
    trace (m st).2 = (evs ++ trace st)%list
    ∧ kv (m st).2 = replay evs (kv st)
    ∧ Forall P evs.

(** The snapshot invariant: the free items are the free-filter of all
    items, in order, and the count is the number of items. *)
Definition snapshotInvariant (s : Snapshot) : Prop :=
  freeModels s = List.filter isFree (allModels s)
  ∧ totalModels s = length (allModels s).

(** A write under [models_data] carries a snapshot satisfying the
    invariant. *)
Definition writesValidSnapshot (e : Event) : Prop :=
  ∀ value, e = EvKvPut "models_data" value →
           ∃ s, value = KvSnapshot s ∧ snapshotInvariant s.

Definition isStoreWrite (e : Event) : bool :=
  match e with
  | EvKvPut _ _ => true
  | _ => false
  end.

Definition isCatalogFetch (e : Event) : bool :=
  match e with
  | EvFetchCatalog _ => true
  | _ => false
  end.

Definition isNotification (e : Event) : bool :=
  match e with
  | EvFetchBark _ => true
  | _ => false
  end.

Definition isDetect (e : Event) : bool :=
  match e with
  | EvDetect _ _ => true
  | _ => false
  end.

(** Reads of the two throttle keys and writes of the last-trigger key: the
    store accesses the scheduled handler makes for its throttle. *)
Definition isThrottleAccess (e : Event) : bool :=
  match e with
  | EvKvGet key =>
      String.eqb key "last_monitor_trigger" || String.eqb key "last_update"
  | EvKvPut key _ => String.eqb key "last_monitor_trigger"
  | _ => false
  end.

(** [needle] occurs in [text]. *)
Definition contains (text needle : string) : Prop :=
  ∃ before after, text = before ++ needle ++ after.

(** [run] writes only valid snapshots under [models_data], and leaves there
    either what was stored before or a valid snapshot. *)
Definition persistsOnlyValidSnapshots (run : M Response) : Prop :=
  ∀ st, ∃ evs,
    trace (run st).2 = (evs ++ trace st)%list
    ∧ (∀ value, In (EvKvPut "models_data" value) evs →
                ∃ s, value = KvSnapshot s ∧ snapshotInvariant s)
    ∧ (∀ value, kv (run st).2 !! "models_data" = Some value →
                kv st !! "models_data" = Some value
                ∨ ∃ s, value = KvSnapshot s ∧ snapshotInvariant s).

(** The catalog fetch fails: the request is rejected, or the response has a
    status outside 200..299. *)
Definition catalogFetchFails (platform : Platform) : Prop :=
  match catalogReply platform with
  | NetworkError _ => True
  | Reply status _ _ => statusOk status = false
  end.

(** What a run does when the catalog fetch fails: it returns the failure
    result, whose message carries the response status (or is the rejection
    message); it writes nothing, so the store is as before; and it attempts
    an error notification exactly when a target is configured. *)
Definition abortsWithoutPersisting (env : Env) (platform : Platform)
    (run : M Response) (st : State) : Prop :=
  ∃ error at_ evs,
    (run st).1 = Returned {| status := 500; body := RunFailed error at_ |}
    ∧ success {| status := 500; body := RunFailed error at_ |} = Some false
    ∧ (∀ status statusText body,
         catalogReply platform = Reply status statusText body →
         contains error (pretty status))
    ∧ (∀ message, catalogReply platform = NetworkError message → error = message)
    ∧ trace (run st).2 = (evs ++ trace st)%list
    ∧ Forall (λ e, isStoreWrite e = false) evs
    ∧ kv (run st).2 = kv st
    ∧ (configured (BARK_API_URL env) = true →
       ∃ request, In (EvFetchBark request) evs
                  ∧ category request = "error"
                  ∧ contains (content request) error)
    ∧ (configured (BARK_API_URL env) = false →
       Forall (λ e, isNotification e = false) evs).

(** No previous snapshot: reading [models_data] fails, nothing is stored
    there, or what is stored is not a snapshot (empty text, text that
    [JSON.parse] rejects, or an object without [freeModels]). *)
Definition coldStart (platform : Platform) (st : State) : Prop :=
  is_Some (kvGetError platform "models_data")
  ∨ kv st !! "models_data" = None
  ∨ ∃ raw, kv st !! "models_data" = Some raw ∧ ∀ s, raw ≠ KvSnapshot s.

(** A call to the notification target other than an error report. *)
Definition isChangeNotification (e : Event) : bool :=
  match e with
  | EvFetchBark request => negb (String.eqb (category request) "error")
  | _ => false
  end.

(** What a cold-start run does: the change detector is not entered and no
    change notification is sent; and when the catalog delivers items and the
    store accepts the two writes, the run returns the success result, the
    store holds the new snapshot and its timestamp, and no call at all is
    made to the notification target. *)
Definition coldStartRun (platform : Platform) (run : M Response) (st : State)
  : Prop :=
  ∃ evs,
    trace (run st).2 = (evs ++ trace st)%list
    ∧ Forall (λ e, isDetect e = false ∧ isChangeNotification e = false) evs
    ∧ (∀ status statusText items,
         catalogReply platform = Reply status statusText (JsonObject (Some items)) →
         statusOk status = true →
         items ≠ [] →
         kvPutError platform "models_data" = None →
         kvPutError platform "last_update" = None →
         ∃ stamp finished,
           (run st).1
           = Returned {| status := 200;
                         body := RunSucceeded (length items)
                                   (length (identifyFreeModels items))
                                   finished |}
           ∧ kv (run st).2
             = <["last_update" := KvTime stamp]>
                 (<["models_data" :=
                      KvSnapshot {| timestamp := stamp;
                                    totalModels := length items;
                                    freeModels := identifyFreeModels items;
                                    allModels := items |}]> (kv st))
           ∧ Forall (λ e, isNotification e = false) evs).

(** ** Reference definitions for the scheduled handler *)

(** The interval, in milliseconds, that the scheduled handler derives from
    [env] and the stored settings: the default of 5 minutes, overridden by
    the environment and then by the settings, clamped. *)
Definition effectiveIntervalMs (env : Env) (store : gmap string KvValue) : Z :=
  let fromEnv := Worker.envInterval env 5 in
  let intervalMinutes :=
    match store !! "app_settings" with
    | Some (KvSettings s) =>
        match monitorInterval s with
        | Some stored => if Z.eqb stored 0 then fromEnv else stored
        | None => fromEnv
        end
    | _ => fromEnv
    end in
  Worker.clampInterval intervalMinutes * 60 * 1000.

(** Neither a catalog fetch, nor a store write, nor a notification. *)
Definition isQuiet (e : Event) : bool :=
  negb (isCatalogFetch e) && negb (isStoreWrite e) && negb (isNotification e).



(** ** Sample inputs *)

Definition sampleEnv : Env :=
  {| BARK_API_URL := Some "https://api.day.app/KEY/";
     OPENROUTER_API_KEY := None;
     MONITOR_INTERVAL_MINUTES := None |}.

Definition modelA : CatalogItem :=
  {| id := "vendor/a:free"; name := Some "A"; pricing := None;
     context_length := None |}.

Definition modelB : CatalogItem :=
  {| id := "vendor/b:free"; name := Some "B";
     pricing := Some {| prompt := JsStr "0"; completion := JsStr "0" |};
     context_length := Some 8192 |}.

Definition modelC : CatalogItem :=
  {| id := "vendor/c"; name := None;
     pricing := Some {| prompt := JsStr "0.000002";
                        completion := JsStr "0.000004" |};
     context_length := None |}.

(** A platform whose catalog answers 429 and whose notification target
    accepts every call; the clock advances one millisecond per reading. *)
Definition rateLimited : Platform :=
  {| catalogReply := Reply 429 "Too Many Requests" (InvalidJson "");
     barkReply := λ _, Reply 200 "OK" tt;
     kvGetError := λ _, None;
     kvPutError := λ _, None;
     clock := λ n, 1700000000000 + Z.of_nat n |}.

(** A platform whose catalog lists [modelB] and [modelC] and whose
    notification target answers 500. *)
Definition barkDown : Platform :=
  {| catalogReply := Reply 200 "OK" (JsonObject (Some [modelB; modelC]));
     barkReply := λ _, Reply 500 "Internal Server Error" tt;
     kvGetError := λ _, None;
     kvPutError := λ _, None;
     clock := λ n, 1700000000000 + Z.of_nat n |}.

Definition emptyState : State :=
  {| kv := ∅; barkUrl := None; ticks := 0; trace := [] |}.

(** A platform whose catalog lists [modelB] and [modelC] and whose
    notification target accepts every call. *)
Definition catalogUp : Platform :=
  {| catalogReply := Reply 200 "OK" (JsonObject (Some [modelB; modelC]));
     barkReply := λ _, Reply 200 "OK" tt;
     kvGetError := λ _, None;
     kvPutError := λ _, None;
     clock := λ n, 1700000000000 + Z.of_nat n |}.

(** A store holding a snapshot whose free items are [modelA] and [modelB]. *)
Definition previousState : State :=
  {| kv := {[ "models_data" :=
                KvSnapshot {| timestamp := 1699999700000; totalModels := 2;
                              freeModels := [modelA; modelB];
                              allModels := [modelA; modelB] |} ]};
     barkUrl := None; ticks := 0; trace := [] |}.

(** The same store with a notification target saved in the settings. *)
Definition previousStateWithSettings : State :=
  {| kv := <[ "app_settings" :=
                KvSettings {| monitorInterval := Some 5;
                              barkBaseUrl := Some "https://api.day.app/KEY" |} ]>
             (kv previousState);
     barkUrl := None; ticks := 0; trace := [] |}.

Definition envWithoutTarget : Env :=
  {| BARK_API_URL := None; OPENROUTER_API_KEY := None;
     MONITOR_INTERVAL_MINUTES := None |}.


(** [modelB] under another name and price, and a further free item. *)
Definition modelBRenamed : CatalogItem :=
  {| id := "vendor/b:free"; name := Some "B v2";
     pricing := Some {| prompt := JsStr "0.1"; completion := JsStr "0.1" |};
     context_length := Some 16384 |}.

Definition modelD : CatalogItem :=
  {| id := "vendor/d:free"; name := Some "D"; pricing := None;
     context_length := None |}.

Definition plainWeb : WebCall → M Response :=
  λ _, ret {| status := 200; body := WebContent |}.

(** ** Further vocabulary for the effects of a computation *)

(** [m] never ends in an exception. *)
Definition neverThrows {A} (m : M A) : Prop :=
  ∀ st, ∃ a, (m st).1 = Returned a.

(** [m] leaves the instance field [this.barkUrl] as it found it. *)
Definition keepsBarkUrl {A} (m : M A) : Prop :=
  ∀ st, barkUrl (m st).2 = barkUrl st.

(** A run that reports success has persisted what it reports: the store
    holds, under [models_data], a snapshot of the list the catalog
    delivered, with the counts of the response, and, under [last_update],
    the timestamp of that snapshot. *)
Definition successMeansPersisted (platform : Platform) (run : M Response)
  : Prop :=
  ∀ st r,
    (run st).1 = Returned r →
    success r = Some true →
    ∃ s finished status statusText,
      r = {| status := 200;
             body := RunSucceeded (totalModels s) (length (freeModels s))
                       finished |}
      ∧ catalogReply platform
        = Reply status statusText (JsonObject (Some (allModels s)))
      ∧ snapshotInvariant s
      ∧ kv (run st).2 !! "models_data" = Some (KvSnapshot s)
      ∧ kv (run st).2 !! "last_update" = Some (KvTime (timestamp s)).

(** ** The test notification of the revised monitor (testBarkNotification) *)

(** The longest prefix of [s] free of ["/"], and the rest. *)
Fixpoint takeSegment (s : list ascii) : list ascii * list ascii :=
  match s with
  | c :: s' =>
      if Ascii.eqb c "/" then ([], s)
      else let '(segment, rest) := takeSegment s' in (c :: segment, rest)
  | [] => ([], [])
  end.

(** [url.replace(/\/[^/]+\/$/, '/****/')]: a last path segment that is not
    empty and is closed by a slash at the very end of [url] is replaced,
    with its two slashes, by [/****/]; any other [url] is returned as is.
    The text is scanned from its end. *)
Definition maskKey (url : string) : string :=
  match rev (list_ascii_of_string url) with
  | "/"%char :: before =>
      match takeSegment before with
      | (_ :: _, "/"%char :: prefix) =>
          string_of_list_ascii (rev prefix) ++ "/****/"
      | _ => url
      end
  | _ => url
  end.

(** The object [testBarkNotification] returns. *)
Record BarkTestResult : Type := mkBarkTestResult {
  testMessage : string;
  testBarkUrl : string;
  testAdded : list string;
  testRemoved : list string;
}.

Definition mockAddedModels : list CatalogItem :=
  [ {| id := "test-model-1:free"; name := Some "Test Model 1 Free";
       pricing := None; context_length := None |};
    {| id := "test-model-2:free"; name := Some "Test Model 2 Free";
       pricing := None; context_length := None |} ].

Definition mockRemovedModels : list CatalogItem :=
  [ {| id := "old-model-1:free"; name := Some "Old Model 1 Free";
       pricing := None; context_length := None |};
    {| id := "old-model-2:free"; name := Some "Old Model 2 Free";
       pricing := None; context_length := None |} ].

Module BarkTest.
Section BarkTest.
Context (platform : Platform).

Definition testBarkNotification : M BarkTestResult :=
  let* barkUrl := Revised.getBarkUrlFromSettings platform in
  if negb (configured barkUrl) then
    throw "Bark API URL 未配置，请在设置中配置"
  else
    let* originalBarkUrl := getBarkUrl in
    do setBarkUrl barkUrl then
    tryFinally
      (do Revised.sendChangeNotification platform mockAddedModels
            mockRemovedModels then
       ret {| testMessage := "测试推送已发送";
              testBarkUrl := maskKey (default "" barkUrl);
              testAdded := map displayName mockAddedModels;
              testRemoved := map displayName mockRemovedModels |})
      (setBarkUrl originalBarkUrl).
End BarkTest.
End BarkTest.

(** ** The read endpoints of the web interface (src/worker/web.js) *)

(** The JSON payloads of the endpoints. *)
Inductive ApiBody : Type :=
| ApiError (error message : string)
| ApiModels (data : list CatalogItem) (stamp : option Z) (totalCount : nat)
| ApiStatus (lastUpdate : option KvValue) (hasData : bool)
    (counts : option (nat * nat))
| ApiStatusError (error : string)
| ApiBarkTest (result : BarkTestResult)
| ApiBarkTestError (error : string).

Record ApiResponse : Type := mkApiResponse {
  apiStatus : Z;
  apiBody : ApiBody;
}.

Module Web.
Section Web.
Context (env : Env) (platform : Platform).

Definition noData : ApiResponse :=
  {| apiStatus := 404;
     apiBody := ApiError "No models data available"
                  "Run monitoring first to collect data" |}.

Definition getModelsApi : M ApiResponse :=
  tryCatch
    (let* data := kvGet platform "models_data" in
     match data with
     | Some raw =>
         if kvTruthy raw then
           let* modelsData := jsonParse raw in
           ret {| apiStatus := 200;
                  apiBody :=
                    match modelsData with
                    | KvSnapshot s =>
                        ApiModels (allModels s) (Some (timestamp s))
                          (totalModels s)
                    | _ => ApiModels [] None 0
                    end |}
         else ret noData
     | None => ret noData
     end)
    (λ error,
       do console Error "Error getting models data:" then
       ret {| apiStatus := 500;
              apiBody := ApiError "Failed to retrieve models data" error |}).

Definition getFreeModelsApi : M ApiResponse :=
  tryCatch
    (let* data := kvGet platform "models_data" in
     match data with
     | Some raw =>
         if kvTruthy raw then
           let* modelsData := jsonParse raw in
           ret {| apiStatus := 200;
                  apiBody :=
                    match modelsData with
                    | KvSnapshot s =>
                        ApiModels (freeModels s) (Some (timestamp s))
                          (length (freeModels s))
                    | _ => ApiModels [] None 0
                    end |}
         else ret noData
     | None => ret noData
     end)
    (λ error,
       do console Error "Error getting free models data:" then
       ret {| apiStatus := 500;
              apiBody := ApiError "Failed to retrieve free models data" error |}).

(** [value || 'Never'] and [!!data] for what [kv.get] returned. *)
Definition present (value : option KvValue) : option KvValue :=
  match value with
  | Some raw => if kvTruthy raw then Some raw else None
  | None => None
  end.

Definition getStatus : M ApiResponse :=
  tryCatch
    (let* lastUpdate := kvGet platform "last_update" in
     let* data := kvGet platform "models_data" in
     match present data with
     | Some raw =>
         let* modelsData := jsonParse raw in
         ret {| apiStatus := 200;
                apiBody :=
                  ApiStatus (present lastUpdate) true
                    (Some match modelsData with
                          | KvSnapshot s =>
                              (totalModels s, length (freeModels s))
                          | _ => (0%nat, 0%nat)
                          end) |}
     | None =>
         ret {| apiStatus := 200;
                apiBody := ApiStatus (present lastUpdate) false None |}
     end)
    (λ error,
       ret {| apiStatus := 500; apiBody := ApiStatusError error |}).

Definition testBarkNotification : M ApiResponse :=
  tryCatch
    (do Engine.newModelMonitor env then
     let* result := BarkTest.testBarkNotification platform in
     ret {| apiStatus := 200; apiBody := ApiBarkTest result |})
    (λ error,
       do console Error "Error testing Bark notification:" then
       ret {| apiStatus := 500; apiBody := ApiBarkTestError error |}).
End Web.
End Web.

(** [baseUrl] of the revised [sendBarkNotification]: the target with a
    slash appended unless it ends with one. *)
Definition withSlash (barkUrl : string) : string :=
  if endsWith barkUrl "/" then barkUrl else barkUrl ++ "/".

(** The notification target saved in the settings, if the stored document
    is a settings object holding a non-empty one. *)
Definition settingsTarget (store : gmap string KvValue) : option string :=
  match store !! "app_settings" with
  | Some (KvSettings s) =>
      if configured (barkBaseUrl s) then barkBaseUrl s else None
  | _ => None
  end.


(** The target [testBarkNotification] delivers to: the one saved in the
    settings, whatever [this.barkUrl] holds. *)
Definition testTarget (platform : Platform) (st : State) : option string :=
  match kvGetError platform "app_settings" with
  | Some _ => None
  | None => settingsTarget (kv st)
  end.

(** The calls to the notification target among [evs]. *)
Definition notifications (evs : list Event) : list Event :=
  List.filter isNotification evs.

(** The reads of the store among [evs]. *)
Definition storeReads (evs : list Event) : list Event :=
  List.filter (λ e, match e with EvKvGet _ => true | _ => false end) evs.

(** The state after [detectAndNotifyChanges] has been entered. *)
Definition entered (previousFreeModels currentFreeModels : list CatalogItem)
    (st : State) : State :=
  {| kv := kv st; barkUrl := barkUrl st; ticks := ticks st;
     trace := EvDetect previousFreeModels currentFreeModels :: trace st |}.

(** The message of the error [runMonitoring] raises on an empty catalog. *)
Definition noModelsMessage : string := "No models received from OpenRouter API".

(** The first two effects of every run of the monitor, newest first. *)
Definition runStart (env : Env) : list Event :=
  [EvFetchCatalog (configured (OPENROUTER_API_KEY env));
   EvConsole Log "Starting OpenRouter models monitoring..."].

(** The scheduled handler's reads, newest first. *)
Definition throttleReads : list Event :=
  [EvKvGet "last_update"; EvKvGet "last_monitor_trigger"].

(** The paths the fetch handler gives to a handler of their own. *)
Definition knownApiPaths : list string :=
  ["/api/models"; "/api/free-models"; "/api/monitor/run"; "/api/status";
   "/api/settings"; "/api/test/bark"].


(** ** Further sample inputs *)

(** A platform whose catalog answers 200 with an empty list. *)
Definition emptyCatalog : Platform :=
  {| catalogReply := Reply 200 "OK" (JsonObject (Some []));
     barkReply := λ _, Reply 200 "OK" tt;
     kvGetError := λ _, None;
     kvPutError := λ _, None;
     clock := λ n, 1700000000000 + Z.of_nat n |}.

(** [catalogUp] with a store that rejects every read. *)
Definition storeDown : Platform :=
  {| catalogReply := catalogReply catalogUp;
     barkReply := barkReply catalogUp;
     kvGetError := λ _, Some "KV unavailable";
     kvPutError := λ _, None;
     clock := clock catalogUp |}.

(** [catalogUp] with a store that rejects the write of [last_update]. *)
Definition halfWrite : Platform :=
  {| catalogReply := catalogReply catalogUp;
     barkReply := barkReply catalogUp;
     kvGetError := λ _, None;
     kvPutError := λ key, if String.eqb key "last_update"
                          then Some "KV write failed" else None;
     clock := clock catalogUp |}.

Definition sampleSnapshot : Snapshot :=
  {| timestamp := 1700000000000; totalModels := 2;
     freeModels := [modelB]; allModels := [modelB; modelC] |}.

(** * Properties *)

(** ** Free-item classifier *)

Lemma id_guard (i : string) :
  truthy (JsStr i) && endsWith i ":free" = endsWith i ":free".
Proof.
  destruct i as [|c i]; [reflexivity |].
  cbn [truthy]. reflexivity.
Qed.

(** C1.  The classifier agrees with the three-rule reference predicate on
    every catalog item: an identifier ending in [:free] makes the item free
    whatever its pricing; otherwise the item is free exactly when a pricing
    record is present and both cost fields read as the number 0, which is
    the case for the string "0", the number 0 and a missing field; otherwise
    it is not free.  In particular an item without the suffix and with a
    cost field that does not read as 0 is not free. *)
Theorem isFree_three_rules :
  (∀ item, isFree item = isFreeRules item)
  ∧ isZero (priceOf (JsStr "0")) = true
  ∧ isZero (priceOf (JsNum (Dec false 0 0))) = true
  ∧ isZero (priceOf JsUndefined) = true
  ∧ (∀ item, endsWith (id item) ":free" = true → isFree item = true)
  ∧ (∀ item p,
       endsWith (id item) ":free" = false →
       pricing item = Some p →
       isZero (priceOf (prompt p)) = false
       ∨ isZero (priceOf (completion p)) = false →
       isFree item = false).
Proof.
  assert (Heq : ∀ item, isFree item = isFreeRules item).
  { intros item. unfold isFree, isFreeRules. rewrite id_guard.
    destruct (endsWith (id item) ":free"); [reflexivity |].
    destruct (pricing item) as [p|]; [| reflexivity].
    cbn zeta.
    destruct (isZero (priceOf (prompt p)) && isZero (priceOf (completion p)));
      reflexivity. }
  split; [exact Heq |].
  repeat split; try reflexivity.
  - intros item H. rewrite Heq. unfold isFreeRules. rewrite H. reflexivity.
  - intros item p Hid Hp Hprice. rewrite Heq. unfold isFreeRules.
    rewrite Hid, Hp. destruct Hprice as [H | H]; rewrite H.
    + reflexivity.
    + rewrite andb_false_r. reflexivity.
Qed.

(** A paid item is not free; a paid item with the suffix is. *)
Lemma isFree_three_rules_witness :
  let paid := {| id := "vendor/model"; name := None;
                 pricing := Some {| prompt := JsStr "0.000002";
                                    completion := JsStr "0" |};
                 context_length := None |} in
  let tagged := {| id := "vendor/model:free"; name := None;
                   pricing := Some {| prompt := JsStr "0.000002";
                                      completion := JsStr "0" |};
                   context_length := None |} in
  isFree paid = false ∧ isFree tagged = true.
Proof.
  cbv zeta. split.
  - eapply (proj2 (proj2 (proj2 (proj2 (proj2 isFree_three_rules))))).
    + reflexivity.
    + reflexivity.
    + left. vm_compute. reflexivity.
  - apply (proj1 (proj2 (proj2 (proj2 (proj2 isFree_three_rules))))).
    reflexivity.
Defined.




(** ** Change detector *)

Lemma elem_of_idSet (i : string) (items : list CatalogItem) :
  i ∈ idSet items ↔ ∃ a, a ∈ items ∧ id a = i.
Proof.
  unfold idSet. rewrite elem_of_list_to_set, list_elem_of_fmap.
  split; intros (a & H1 & H2); exists a; auto.
Qed.

Lemma occursIn_idSet (i : string) (items : list CatalogItem) :
  occursIn i items = true ↔ i ∈ idSet items.
Proof.
  rewrite elem_of_idSet. unfold occursIn. rewrite existsb_exists.
  split; intros (a & Ha & Hid); exists a.
  - apply list_elem_of_In in Ha. apply String.eqb_eq in Hid. auto.
  - rewrite <- list_elem_of_In, String.eqb_eq. auto.
Qed.

Lemma filter_not_in_idSet (A B : list CatalogItem) :
  filter (λ model, id model ∉ idSet A) B
  = List.filter (λ b, negb (occursIn (id b) A)) B.
Proof.
  induction B as [|b B IH]; [reflexivity |].
  rewrite filter_cons. cbn [List.filter]. rewrite IH.
  destruct (occursIn (id b) A) eqn:E; cbn [negb].
  - apply occursIn_idSet in E. rewrite decide_False by tauto. reflexivity.
  - rewrite decide_True; [reflexivity |].
    rewrite <- occursIn_idSet, E. discriminate.
Qed.

Lemma elem_of_addedModels (A B : list CatalogItem) (x : CatalogItem) :
  x ∈ addedModels A B ↔ x ∈ B ∧ ∀ a, a ∈ A → id a ≠ id x.
Proof.
  unfold addedModels. rewrite list_elem_of_filter, elem_of_idSet.
  split.
  - intros [Hno Hin]. split; [exact Hin |]. intros a Ha Heq. apply Hno. eauto.
  - intros [Hin Hno]. split; [| exact Hin]. intros (a & Ha & Heq). eapply Hno; eauto.
Qed.

Lemma removedModels_swap (A B : list CatalogItem) :
  removedModels A B = addedModels B A.
Proof. reflexivity. Qed.

(** C3.  The change detector returns, as [added], the items of the current
    sequence whose identifier occurs in no item of the previous one and, as
    [removed], the items of the previous sequence whose identifier occurs in
    no item of the current one, each as a subsequence of its source, in
    source order.  Hence no added item is in the previous sequence, every
    added item is in the current one, comparing a sequence with itself
    yields two empty results, and two items sharing an identifier, one on
    each side, are reported by neither result whatever their other fields. *)
Theorem change_detector (A B : list CatalogItem) :
  ((addedModels A B, removedModels A B) = diffReference A B)
  ∧ sublist (addedModels A B) B
  ∧ sublist (removedModels A B) A
  ∧ (∀ x, x ∈ addedModels A B ↔ x ∈ B ∧ ∀ a, a ∈ A → id a ≠ id x)
  ∧ (∀ x, x ∈ removedModels A B ↔ x ∈ A ∧ ∀ b, b ∈ B → id b ≠ id x)
  ∧ (∀ x, x ∈ addedModels A B → x ∉ A)
  ∧ (∀ x, x ∈ addedModels A B → x ∈ B)
  ∧ ((addedModels A A, removedModels A A) = ([], []))
  ∧ (∀ a b, a ∈ A → b ∈ B → id a = id b →
       (a ∉ removedModels A B) ∧ (b ∉ addedModels A B)).
Proof.
  assert (Hself : ∀ L, addedModels L L = []).
  { intros L. destruct (addedModels L L) as [|x l] eqn:E; [reflexivity |].
    assert (Hx : x ∈ addedModels L L) by (rewrite E; left).
    apply elem_of_addedModels in Hx as [Hin Hno].
    exfalso. exact (Hno x Hin eq_refl). }
  split_and!.
  - unfold diffReference, addedModels, removedModels.
    rewrite !filter_not_in_idSet. reflexivity.
  - apply sublist_filter.
  - apply sublist_filter.
  - apply elem_of_addedModels.
  - intros x. rewrite removedModels_swap. apply elem_of_addedModels.
  - intros x Hx Hin. apply elem_of_addedModels in Hx as [_ Hno].
    exact (Hno x Hin eq_refl).
  - intros x Hx. apply elem_of_addedModels in Hx. tauto.
  - rewrite removedModels_swap, Hself. reflexivity.
  - intros a b Ha Hb Hid. rewrite removedModels_swap. split.
    + intros Hin. apply elem_of_addedModels in Hin as [_ Hno].
      exact (Hno b Hb (eq_sym Hid)).
    + intros Hin. apply elem_of_addedModels in Hin as [_ Hno].
      exact (Hno a Ha Hid).
Qed.

Lemma change_detector_witness :
  (addedModels [modelA; modelB] [modelBRenamed; modelD],
   removedModels [modelA; modelB] [modelBRenamed; modelD])
  = ([modelD], [modelA])
  ∧ (modelB ∉ removedModels [modelA; modelB] [modelBRenamed; modelD])
  ∧ (modelBRenamed ∉ addedModels [modelA; modelB] [modelBRenamed; modelD]).
Proof.
  pose proof (change_detector [modelA; modelB] [modelBRenamed; modelD])
    as (Hdiff & _ & _ & _ & _ & _ & _ & _ & Hboth).
  split.
  - rewrite Hdiff. vm_compute. reflexivity.
  - apply (Hboth modelB modelBRenamed).
    + apply list_elem_of_In. right. left. reflexivity.
    + apply list_elem_of_In. left. reflexivity.
    + reflexivity.
Defined.

(** ** Run throttle *)

Lemma lastRunOf_latest (lastTrigger lastUpdate : option Z) :
  (∀ t, lastTrigger = Some t → t ≠ 0) →
  (∀ t, lastUpdate = Some t → t ≠ 0) →
  Worker.lastRunOf [KvTime <$> lastTrigger; KvTime <$> lastUpdate]
  = latest lastTrigger lastUpdate.
Proof.
  intros H1 H2. unfold Worker.lastRunOf.
  destruct lastTrigger as [t|], lastUpdate as [u|]; cbn; try reflexivity.
  specialize (H1 t eq_refl). specialize (H2 u eq_refl).
  destruct (Z.eqb_spec t 0); [lia |]. cbn.
  destruct (Z.ltb_spec t u); f_equal; lia.
Qed.

(** C5.  For stored timestamps other than the epoch instant itself (a
    stored instant of 0 ms is falsy and is read as absent, see
    [throttle_reads_epoch_as_absent]; the worker stores clock readings,
    which are never 0), the scheduled handler decides as the throttle
    contract says: the configured interval is clamped to [1, 60] minutes; the last
    run is the later of the last-trigger and last-update instants, an absent
    one being ignored; with no last run the run is accepted; otherwise it is
    accepted exactly when [intervalMinutes * 60000 <= now - lastRun].  With
    an interval of 5 minutes a last run 4 minutes ago is refused, one
    6 minutes ago is accepted, and with no earlier run the run is accepted. *)
Theorem throttle_follows_contract
    (now configuredIntervalMinutes : Z) (lastTrigger lastUpdate : option Z) :
  (∀ t, lastTrigger = Some t → t ≠ 0) →
  (∀ t, lastUpdate = Some t → t ≠ 0) →
  let intervalMinutes := Worker.clampInterval configuredIntervalMinutes in
  let lastRun :=
    Worker.lastRunOf [KvTime <$> lastTrigger; KvTime <$> lastUpdate] in
  1 ≤ intervalMinutes ≤ 60
  ∧ lastRun = latest lastTrigger lastUpdate
  ∧ (lastRun = None →
     Worker.throttled now lastRun (intervalMinutes * 60 * 1000) = false)
  ∧ (∀ t, lastRun = Some t →
     (Worker.throttled now lastRun (intervalMinutes * 60 * 1000) = false
      ↔ intervalMinutes * 60000 ≤ now - t))
  ∧ negb (Worker.throttled now lastRun (intervalMinutes * 60 * 1000))
    = shouldRun now lastTrigger lastUpdate configuredIntervalMinutes
  ∧ (now - 4 * 60000 ≠ 0 →
     Worker.throttled now (Some (now - 4 * 60000))
       (Worker.clampInterval 5 * 60 * 1000) = true)
  ∧ (now - 6 * 60000 ≠ 0 →
     Worker.throttled now (Some (now - 6 * 60000))
       (Worker.clampInterval 5 * 60 * 1000) = false)
  ∧ Worker.throttled now (Worker.lastRunOf [None; None])
      (Worker.clampInterval 5 * 60 * 1000) = false.
Proof.
  intros H1 H2 intervalMinutes lastRun.
  assert (Hlast : lastRun = latest lastTrigger lastUpdate)
    by (apply lastRunOf_latest; assumption).
  assert (Hpos : ∀ t, lastRun = Some t → t ≠ 0).
  { intros t. rewrite Hlast.
    destruct lastTrigger as [a|], lastUpdate as [b|]; cbn; intros [= <-];
      try (apply H1; reflexivity); try (apply H2; reflexivity).
    specialize (H1 a eq_refl). specialize (H2 b eq_refl). lia. }
  assert (Hclamp : 1 ≤ intervalMinutes ≤ 60)
    by (unfold intervalMinutes, Worker.clampInterval; lia).
  assert (Hdec : ∀ t, lastRun = Some t →
            Worker.throttled now lastRun (intervalMinutes * 60 * 1000)
            = Z.ltb (now - t) (intervalMinutes * 60 * 1000)).
  { intros t Ht. rewrite Ht. cbn.
    destruct (Z.eqb_spec t 0); [specialize (Hpos t Ht); lia | reflexivity]. }
  split; [exact Hclamp |]. split; [exact Hlast |].
  split; [intros ->; reflexivity |].
  split.
  { intros t Ht. rewrite (Hdec t Ht), Z.ltb_ge. lia. }
  split.
  { unfold shouldRun. rewrite <- Hlast.
    destruct lastRun as [t|] eqn:E; [| reflexivity].
    rewrite (Hdec t eq_refl).
    replace (Z.max 1 (Z.min 60 configuredIntervalMinutes)) with intervalMinutes
      by (unfold intervalMinutes, Worker.clampInterval; lia).
    destruct (Z.ltb_spec (now - t) (intervalMinutes * 60 * 1000));
      destruct (Z.leb_spec (intervalMinutes * 60000) (now - t)); cbn; lia. }
  split.
  { intros Hp. unfold Worker.throttled.
    destruct (Z.eqb_spec (now - 4 * 60000) 0); [lia |].
    apply Z.ltb_lt. unfold Worker.clampInterval. lia. }
  split.
  { intros Hp. unfold Worker.throttled.
    destruct (Z.eqb_spec (now - 6 * 60000) 0); [lia |].
    apply Z.ltb_ge. unfold Worker.clampInterval. lia. }
  reflexivity.
Qed.

(** A trigger at 12:00:06 with a last trigger at 12:00:00 and a last update
    one minute earlier, under a configured interval of 5 minutes. *)
Lemma throttle_follows_contract_witness :
  Worker.lastRunOf [Some (KvTime 1700000000000); Some (KvTime 1699999940000)]
  = Some 1700000000000
  ∧ negb (Worker.throttled 1700000006000
            (Worker.lastRunOf
               [Some (KvTime 1700000000000); Some (KvTime 1699999940000)])
            (Worker.clampInterval 5 * 60 * 1000))
    = shouldRun 1700000006000 (Some 1700000000000) (Some 1699999940000) 5.
Proof.
  pose proof (throttle_follows_contract 1700000006000 5
                (Some 1700000000000) (Some 1699999940000)) as H.
  cbv zeta in H.
  destruct H as (_ & Hlast & _ & _ & Hdec & _).
  - intros t [= <-]. lia.
  - intros t [= <-]. lia.
  - split; [exact Hlast | exact Hdec].
Defined.

(** A stored instant of exactly 0 ms is falsy: the loop lets any other
    instant replace it, and the early-return test reads it as no last run. *)
Lemma throttle_reads_epoch_as_absent (now intervalMs earlier : Z) :
  Worker.lastRunOf [Some (KvTime 0); Some (KvTime earlier)] = Some earlier
  ∧ Worker.throttled now (Worker.lastRunOf [Some (KvTime 0); None]) intervalMs
    = false.
Proof. split; reflexivity. Qed.

(** ** Effects of the monitor and of the handlers *)

Section EmitsRules.
Context {A B : Type} (P : Event → Prop).

Lemma replay_app (e2 e1 : list Event) (store : gmap string KvValue) :
  replay (e2 ++ e1)%list store = replay e2 (replay e1 store).
Proof. unfold replay. apply foldr_app. Qed.

Lemma emits_ret (a : A) : emits P (ret a).
Proof. intros st. exists []. repeat split. constructor. Qed.

Lemma emits_throw (message : string) : emits P (@throw A message).
Proof. intros st. exists []. repeat split. constructor. Qed.

Lemma emits_bind (m : M A) (k : A → M B) :
  emits P m → (∀ a, emits P (k a)) → emits P (bind m k).
Proof.
  intros Hm Hk st. unfold bind.
  destruct (Hm st) as (e1 & T1 & K1 & F1).
  destruct (m st) as [[a | message] st1]; cbn [snd] in *.
  - destruct (Hk a st1) as (e2 & T2 & K2 & F2).
    exists (e2 ++ e1)%list. rewrite T2, T1, K2, K1, replay_app.
    repeat split; [apply app_assoc | apply Forall_app; auto].
  - exists e1. auto.
Qed.

Lemma emits_tryCatch (body : M A) (handler : string → M A) :
  emits P body → (∀ e, emits P (handler e)) → emits P (tryCatch body handler).
Proof.
  intros Hm Hk st. unfold tryCatch.
  destruct (Hm st) as (e1 & T1 & K1 & F1).
  destruct (body st) as [[a | message] st1]; cbn [snd] in *.
  - exists e1. auto.
  - destruct (Hk message st1) as (e2 & T2 & K2 & F2).
    exists (e2 ++ e1)%list. rewrite T2, T1, K2, K1, replay_app.
    repeat split; [apply app_assoc | apply Forall_app; auto].
Qed.

Lemma emits_tryFinally (body : M A) (cleanup : M unit) :
  emits P body → emits P cleanup → emits P (tryFinally body cleanup).
Proof.
  intros Hm Hk st. unfold tryFinally.
  destruct (Hm st) as (e1 & T1 & K1 & F1).
  destruct (body st) as [r st1]; cbn [snd] in *.
  destruct (Hk st1) as (e2 & T2 & K2 & F2).
  destruct (cleanup st1) as [[u | message] st2]; cbn [snd] in *;
    exists (e2 ++ e1)%list; rewrite T2, T1, K2, K1, replay_app;
    (repeat split; [apply app_assoc | apply Forall_app; auto]).
Qed.

Lemma emits_settle (m : M A) : emits P m → emits P (settle m).
Proof.
  intros Hm st. unfold settle. destruct (Hm st) as (e1 & T1 & K1 & F1).
  destruct (m st) as [r st1]. exists e1. auto.
Qed.

Lemma emits_unsettle (r : Outcome A) : emits P (unsettle r).
Proof. destruct r; [apply emits_ret | apply emits_throw]. Qed.
End EmitsRules.

Section EmitsPrimitives.
Context (P : Event → Prop) (platform : Platform).

Lemma emits_emit (e : Event) :
  isStoreWrite e = false → P e → emits P (emit e).
Proof.
  intros Hw H st. exists [e]. split; [reflexivity |].
  split; [| constructor; auto].
  destruct e; try discriminate Hw; reflexivity.
Qed.

Lemma emits_console (level : ConsoleLevel) (label : string) :
  P (EvConsole level label) → emits P (console level label).
Proof. apply emits_emit. reflexivity. Qed.

Lemma emits_getBarkUrl : emits P getBarkUrl.
Proof. intros st. exists []. repeat split. constructor. Qed.

Lemma emits_setBarkUrl (url : option string) : emits P (setBarkUrl url).
Proof. intros st. exists []. repeat split. constructor. Qed.

Lemma emits_dateNow : emits P (dateNow platform).
Proof. intros st. exists []. repeat split. constructor. Qed.

Lemma emits_kvGet (key : string) :
  P (EvKvGet key) → emits P (kvGet platform key).
Proof.
  intros H. unfold kvGet.
  apply emits_bind; [apply emits_emit; [reflexivity | exact H] |].
  intros _. destruct (kvGetError platform key); [apply emits_throw |].
  intros st. exists []. repeat split. constructor.
Qed.

Lemma emits_kvPut (key : string) (value : KvValue) :
  P (EvKvPut key value) → emits P (kvPut platform key value).
Proof.
  intros H. unfold kvPut.
  destruct (kvPutError platform key); [apply emits_throw |].
  intros st. exists [EvKvPut key value]. repeat split. constructor; auto.
Qed.

Lemma emits_fetchCatalog (authorized : bool) :
  P (EvFetchCatalog authorized) → emits P (fetchCatalog platform authorized).
Proof.
  intros H. unfold fetchCatalog.
  apply emits_bind; [apply emits_emit; [reflexivity | exact H] |].
  intros _. destruct (catalogReply platform);
    [apply emits_throw | apply emits_ret].
Qed.

Lemma emits_fetchBark (request : BarkRequest) :
  P (EvFetchBark request) → emits P (fetchBark platform request).
Proof.
  intros H. unfold fetchBark.
  apply emits_bind; [apply emits_emit; [reflexivity | exact H] |].
  intros _. destruct (barkReply platform request);
    [apply emits_throw | apply emits_ret].
Qed.

Lemma emits_jsonParse (v : KvValue) : emits P (jsonParse v).
Proof. destruct v; first [apply emits_ret | apply emits_throw]. Qed.
End EmitsPrimitives.

(** One step of the syntax-directed proof that a computation emits only
    events satisfying a predicate; obligations on single events are left. *)
Ltac emits_step :=
  lazymatch goal with
  | |- emits _ (bind _ _) => apply emits_bind; [| intros ?]
  | |- emits _ (tryCatch _ _) => apply emits_tryCatch; [| intros ?]
  | |- emits _ (tryFinally _ _) => apply emits_tryFinally
  | |- emits _ (settle _) => apply emits_settle
  | |- emits _ (unsettle _) => apply emits_unsettle
  | |- emits _ (ret _) => apply emits_ret
  | |- emits _ (throw _) => apply emits_throw
  | |- emits _ (emit _) => apply emits_emit; [reflexivity |]
  | |- emits _ (console _ _) => apply emits_console
  | |- emits _ getBarkUrl => apply emits_getBarkUrl
  | |- emits _ (setBarkUrl _) => apply emits_setBarkUrl
  | |- emits _ (dateNow _) => apply emits_dateNow
  | |- emits _ (kvGet _ _) => apply emits_kvGet
  | |- emits _ (kvPut _ _ _) => apply emits_kvPut
  | |- emits _ (fetchCatalog _ _) => apply emits_fetchCatalog
  | |- emits _ (fetchBark _ _) => apply emits_fetchBark
  | |- emits _ (jsonParse _) => apply emits_jsonParse
  | |- emits _ (if ?b then _ else _) => destruct b
  | |- emits _ (match ?x with _ => _ end) => destruct x
  end.

Ltac emits_unfold :=
  unfold Worker.scheduled, Worker.settingsInterval,
    Revised.runMonitoring, Original.runMonitoring, Engine.runMonitoring,
    Engine.newModelMonitor,
    Engine.fetchOpenRouterModels, Engine.getPreviousModelsData,
    Engine.storeModelsData, Engine.detectAndNotifyChanges,
    Revised.sendChangeNotification, Revised.sendBarkNotification,
    Revised.getBarkUrlFromSettings,
    Original.sendChangeNotification, Original.sendBarkNotification.

Ltac emits_auto := emits_unfold; repeat emits_step.

Lemma replay_lookup (evs : list Event) (store : gmap string KvValue)
    (key : string) (value : KvValue) :
  replay evs store !! key = Some value →
  store !! key = Some value ∨ In (EvKvPut key value) evs.
Proof.
  induction evs as [|e evs IH]; cbn; [auto |].
  destruct e; try (intros H; destruct (IH H); auto).
  destruct (decide (key0 = key)) as [-> | Hne].
  - rewrite lookup_insert_eq. intros [= ->]. auto.
  - rewrite lookup_insert_ne by exact Hne. intros H. destruct (IH H); auto.
Qed.

Lemma replay_untouched (evs : list Event) (store : gmap string KvValue)
    (key : string) :
  Forall (λ e, ∀ value, e ≠ EvKvPut key value) evs →
  replay evs store !! key = store !! key.
Proof.
  induction 1 as [|e evs He _ IH]; cbn; [reflexivity |].
  destruct e; try exact IH.
  rewrite lookup_insert_ne; [exact IH |].
  intros ->. eapply He. reflexivity.
Qed.

(** ** Snapshot invariant *)

Ltac solve_valid_snapshot :=
  lazymatch goal with
  | |- writesValidSnapshot _ =>
      let v := fresh "value" in
      let H := fresh "H" in
      intros v H;
      first
        [ discriminate H
        | injection H as <-; eexists; split; [reflexivity |];
          split; reflexivity
        | exfalso; injection H; intros; discriminate ]
  end.

Lemma emits_valid_original env platform :
  emits writesValidSnapshot (Original.runMonitoring env platform).
Proof. emits_auto; solve_valid_snapshot. Qed.

Lemma emits_valid_revised env platform :
  emits writesValidSnapshot (Revised.runMonitoring env platform).
Proof. emits_auto; solve_valid_snapshot. Qed.

Lemma emits_persistsOnlyValidSnapshots (run : M Response) :
  emits writesValidSnapshot run → persistsOnlyValidSnapshots run.
Proof.
  intros Hrun st. destruct (Hrun st) as (evs & T & K & F).
  assert (Hin : ∀ value, In (EvKvPut "models_data" value) evs →
                  ∃ s, value = KvSnapshot s ∧ snapshotInvariant s).
  { intros value Hv. rewrite Forall_forall in F.
    apply (F _ (proj2 (list_elem_of_In _ _) Hv)). reflexivity. }
  exists evs. split; [exact T |]. split; [exact Hin |].
  intros value Hv. rewrite K in Hv.
  apply replay_lookup in Hv as [Hv | Hv]; auto.
Qed.

(** C9.  Every snapshot a monitoring run persists has as its free items
    exactly the free-filter of its items, in order, and as its count the
    number of its items; this holds for the monitor of src/worker/monitor.js
    and for its later revision, from any state and under any behaviour of
    the platform.  What is stored under [models_data] after a run is what
    was there before or such a snapshot. *)
Theorem persisted_snapshot_invariant (env : Env) (platform : Platform) :
  persistsOnlyValidSnapshots (Original.runMonitoring env platform)
  ∧ persistsOnlyValidSnapshots (Revised.runMonitoring env platform).
Proof.
  split; apply emits_persistsOnlyValidSnapshots.
  - apply emits_valid_original.
  - apply emits_valid_revised.
Qed.

(** ** Running the monitor along one path *)

Ltac run_unfold :=
  unfold Worker.fetch, Worker.scheduled, Worker.settingsInterval,
    Original.runMonitoring, Revised.runMonitoring, Engine.runMonitoring,
    Engine.newModelMonitor, Engine.fetchOpenRouterModels,
    Engine.getPreviousModelsData, Engine.storeModelsData,
    Engine.detectAndNotifyChanges,
    Original.sendBarkNotification, Original.sendChangeNotification,
    Revised.sendBarkNotification, Revised.sendChangeNotification,
    Revised.getBarkUrlFromSettings, jsonParse,
    fetchCatalog, fetchBark, kvGet, kvPut, dateNow, console, emit,
    getBarkUrl, setBarkUrl, settle, unsettle, kvTruthy,
    tryCatch, tryFinally, bind, ret, throw.

(** The leftmost operand of a boolean expression. *)
Ltac bool_atom b :=
  lazymatch b with
  | negb ?c => bool_atom c
  | andb ?c _ => bool_atom c
  | orb ?c _ => bool_atom c
  | configured ?u => u
  | _ => b
  end.

(** Case analysis on every test the computation in the goal performs. *)
Ltac crunch :=
  repeat (cbn -[pretty];
          match goal with
          | H : ?x = _ |- context [match ?x with _ => _ end] => rewrite H
          | |- context [match ?x with _ => _ end] =>
              lazymatch x with
              | context [match _ with _ => _ end] => fail
              | _ => let a := bool_atom x in destruct a eqn:?
              end
          end);
  cbn -[pretty].

(** Splits an explicit trace into the new events and the old trace. *)
Ltac trace_frame :=
  lazymatch goal with
  | |- ?l = (?evs ++ ?t)%list =>
      let rec go l :=
        lazymatch l with
        | t => constr:(@nil Event)
        | ?e :: ?l' => let r := go l' in constr:(e :: r)
        end in
      let r := go l in
      unify evs r; reflexivity
  end.

Ltac in_list := solve [repeat (first [left; reflexivity | right])].

Lemma append_empty_r (s : string) : s ++ "" = s.
Proof.
  induction s as [|c s IH]; [reflexivity |].
  change (String c (s ++ "") = String c s). f_equal. exact IH.
Qed.

Lemma contains_suffix (before s : string) : contains (before ++ s) s.
Proof. exists before, "". rewrite append_empty_r. reflexivity. Qed.

Lemma contains_infix (before s after : string) :
  contains (before ++ s ++ after) s.
Proof. exists before, after. reflexivity. Qed.

(** ** Catalog fetch failure *)

(** C7.  When the catalog fetch fails (rejected request, or a response
    whose status is not a success status, such as 429), the run of the
    monitor of src/worker/monitor.js returns the result with status 500 and
    [success: false] whose error message contains the response status (or
    is the rejection message); no write is made, so the store, and with it
    the snapshot and last-update keys, is unchanged; and a notification of
    category [error] carrying the message is attempted when a target is
    configured, none otherwise. *)
Theorem fetch_failure_aborts (env : Env) (platform : Platform) (st : State) :
  catalogFetchFails platform →
  abortsWithoutPersisting env platform
    (do Engine.newModelMonitor env then Original.runMonitoring env platform) st.
Proof.
  intros Hfail. unfold catalogFetchFails in Hfail.
  unfold abortsWithoutPersisting. run_unfold.
  destruct (catalogReply platform) as [message | status statusText body] eqn:Hreply;
    [| cbn -[pretty]; rewrite Hfail];
    destruct (BARK_API_URL env) as [url |] eqn:Hurl; crunch.
  all: try (cbn in *; congruence).
  all: eexists _, _, _.
  all: split; [reflexivity |].
  all: split; [reflexivity |].
  all: split;
    [ first [ intros ? ? ? [= <- <- <-]; apply contains_infix
            | intros; discriminate ] |].
  all: split; [first [intros ? [= <-]; reflexivity | intros; discriminate] |].
  all: split; [trace_frame |].
  all: split; [repeat constructor |].
  all: split; [reflexivity |].
  all: split;
    [ first [ intros; discriminate
            | intros _; eexists; split; [in_list |];
              split; [reflexivity | apply contains_suffix] ]
    | first [ intros; discriminate | intros _; repeat constructor ] ].
Qed.

Lemma fetch_failure_aborts_witness :
  catalogFetchFails rateLimited
  ∧ abortsWithoutPersisting sampleEnv rateLimited
      (do Engine.newModelMonitor sampleEnv
       then Original.runMonitoring sampleEnv rateLimited) emptyState.
Proof.
  split.
  - reflexivity.
  - apply fetch_failure_aborts. reflexivity.
Defined.

(** ** Cold start *)

Ltac cold_start_leaf :=
  eexists; split; [trace_frame |];
  split; [repeat constructor |];
  first
    [ let H := fresh "H" in intros ? ? ? H; discriminate H
    | intros ? ? ? [= -> -> ->] Hok Hne Hp1 Hp2;
      first
        [ congruence
        | exfalso; apply Hne; apply nil_length_inv, Nat.eqb_eq; assumption
        | eexists _, _; split; [reflexivity |];
          split; [reflexivity | repeat constructor] ] ].

Lemma cold_start_original (env : Env) (platform : Platform) (st : State) :
  coldStart platform st →
  coldStartRun platform (Original.runMonitoring env platform) st.
Proof.
  intros Hcold. unfold coldStartRun. run_unfold.
  destruct Hcold as [[message Hget] | [Hnone | (raw & Hraw & Hnot)]];
    [| | destruct raw as [s | s | t | text];
         [exfalso; exact (Hnot s eq_refl) | | |]].
  all: crunch.
  all: try (cbn in *; congruence).
  all: cold_start_leaf.
Qed.

Lemma cold_start_revised (env : Env) (platform : Platform) (st : State) :
  coldStart platform st →
  coldStartRun platform (Revised.runMonitoring env platform) st.
Proof.
  intros Hcold. unfold coldStartRun. run_unfold.
  destruct Hcold as [[message Hget] | [Hnone | (raw & Hraw & Hnot)]];
    [| | destruct raw as [s | s | t | text];
         [exfalso; exact (Hnot s eq_refl) | | |]].
  all: crunch.
  all: try (cbn in *; congruence).
  all: cold_start_leaf.
Qed.

(** C4.  In a run that finds no previous snapshot (the read of
    [models_data] fails, nothing is stored there, or what is stored cannot
    be read as a snapshot) the change detector is not entered and no change
    notification is sent; and, the catalog delivering items and the store
    accepting the writes, the new snapshot and its timestamp are persisted
    and the run returns the success result.  This holds for the monitor of
    src/worker/monitor.js and for its later revision. *)
Theorem cold_start_skips_diff (env : Env) (platform : Platform) (st : State) :
  coldStart platform st →
  coldStartRun platform (Original.runMonitoring env platform) st
  ∧ coldStartRun platform (Revised.runMonitoring env platform) st.
Proof.
  intros Hcold. split.
  - apply cold_start_original, Hcold.
  - apply cold_start_revised, Hcold.
Qed.

Lemma cold_start_skips_diff_witness :
  coldStart catalogUp emptyState
  ∧ coldStartRun catalogUp (Original.runMonitoring sampleEnv catalogUp) emptyState
  ∧ coldStartRun catalogUp (Revised.runMonitoring sampleEnv catalogUp) emptyState.
Proof.
  assert (Hcold : coldStart catalogUp emptyState).
  { right. left. reflexivity. }
  split; [exact Hcold |].
  apply cold_start_skips_diff. exact Hcold.
Defined.

(** ** Notification failure *)

(** C8 at a failing input.  The store holds a snapshot with free items
    [modelA] and [modelB]; the catalog lists [modelB] and [modelC]; the
    notification target answers 500.  With the target taken from the
    environment, the run of the revised monitor ends in an exception (the
    error notification fails as well) and the fetch handler answers 500
    with a plain-text body; with the target taken from the settings, the
    run returns the failure result.  In both cases the new snapshot has
    been persisted.  The monitor of src/worker/monitor.js returns the
    success result on the same input. *)
Theorem notification_failure_fails_run :
  let failure := "Bark 推送失败: 500 Internal Server Error" in
  let stored :=
    KvSnapshot {| timestamp := 1700000000000; totalModels := 2;
                  freeModels := [modelB]; allModels := [modelB; modelC] |} in
  let fromEnv :=
    (do Engine.newModelMonitor sampleEnv
     then Revised.runMonitoring sampleEnv barkDown) previousState in
  let manual :=
    Worker.fetch sampleEnv barkDown (λ _, ret {| status := 200; body := WebContent |})
      "/api/monitor/run" previousState in
  let fromSettings :=
    (do Engine.newModelMonitor envWithoutTarget
     then Revised.runMonitoring envWithoutTarget barkDown)
      previousStateWithSettings in
  let original :=
    (do Engine.newModelMonitor sampleEnv
     then Original.runMonitoring sampleEnv barkDown) previousState in
  fromEnv.1 = Thrown failure
  ∧ kv fromEnv.2 !! "models_data" = Some stored
  ∧ manual.1
    = Returned {| status := 500;
                  body := PlainText ("Internal server error: " ++ failure) |}
  ∧ fromSettings.1
    = Returned {| status := 500; body := RunFailed failure 1700000000001 |}
  ∧ kv fromSettings.2 !! "models_data" = Some stored
  ∧ original.1
    = Returned {| status := 200; body := RunSucceeded 2 1 1700000000001 |}
  ∧ kv original.2 !! "models_data" = Some stored.
Proof. vm_compute. repeat split; reflexivity. Qed.

(** ** The scheduled handler *)

(** [crunch] with the throttle arithmetic kept folded. *)
Ltac crunch_sched :=
  repeat (cbn -[pretty Worker.throttled Worker.lastRunOf Worker.clampInterval
                Worker.envInterval Z.mul];
          match goal with
          | H : Worker.lastRunOf ?l = _ |- context [Worker.lastRunOf ?l] =>
              rewrite H
          | H : ?x = _ |- context [match ?x with _ => _ end] => rewrite H
          | |- context [match ?x with _ => _ end] =>
              lazymatch x with
              | context [match _ with _ => _ end] => fail
              | _ => let a := bool_atom x in destruct a eqn:?
              end
          end);
  cbn -[pretty Worker.throttled Worker.lastRunOf Worker.clampInterval
        Worker.envInterval Z.mul].

Ltac sched_unfold :=
  unfold Worker.scheduled, Worker.settingsInterval, jsonParse,
    kvGet, kvPut, dateNow, console, emit, settle, unsettle, kvTruthy,
    tryCatch, bind, ret, throw.












(** ** Manual trigger *)






(** * Further properties of the code *)

Lemma bind_returned {A B} (m : M A) (k : A → M B) (st st' : State) (b : B) :
  bind m k st = (Returned b, st') →
  ∃ a st1, m st = (Returned a, st1) ∧ k a st1 = (Returned b, st').
Proof.
  unfold bind. destruct (m st) as [[a | e] st1]; [eauto | discriminate].
Qed.

Lemma tryCatch_returned {A} (body : M A) (handler : string → M A)
    (st st' : State) (a : A) :
  tryCatch body handler st = (Returned a, st') →
  body st = (Returned a, st')
  ∨ ∃ e st1, body st = (Thrown e, st1) ∧ handler e st1 = (Returned a, st').
Proof.
  unfold tryCatch. destruct (body st) as [[b | e] st1]; intros H.
  - left. exact H.
  - right. eauto.
Qed.

Lemma replay_no_writes (evs : list Event) (store : gmap string KvValue) :
  Forall (λ e, isStoreWrite e = false) evs → replay evs store = store.
Proof.
  induction 1 as [|e evs He _ IH]; [reflexivity |].
  cbn. destruct e; try exact IH. discriminate He.
Qed.

Lemma emits_no_write_kv {A} (m : M A) (st : State) :
  emits (λ e, isStoreWrite e = false) m → kv (m st).2 = kv st.
Proof.
  intros Hm. destruct (Hm st) as (evs & _ & K & F).
  rewrite K. apply replay_no_writes, F.
Qed.

Lemma surjective_run {A} (m : M A) (st : State) : m st = ((m st).1, (m st).2).
Proof. destruct (m st); reflexivity. Qed.

Lemma storeModelsData_returned (platform : Platform) (data : Snapshot)
    (st st' : State) :
  Engine.storeModelsData platform data st = (Returned tt, st') →
  kv st' = <["last_update" := KvTime (timestamp data)]>
             (<["models_data" := KvSnapshot data]> (kv st)).
Proof.
  unfold Engine.storeModelsData. run_unfold. crunch.
  all: intros [= <-]; reflexivity.
Qed.

Lemma fetchOpenRouterModels_returned (env : Env) (platform : Platform)
    (items : list CatalogItem) (st st' : State) :
  Engine.fetchOpenRouterModels env platform st = (Returned items, st') →
  items ≠ [] →
  ∃ status statusText,
    catalogReply platform = Reply status statusText (JsonObject (Some items)).
Proof.
  unfold Engine.fetchOpenRouterModels. run_unfold. crunch.
  all: intros [= <- <-] Hne; try congruence.
  destruct data as [items |]; [eauto | exfalso; apply Hne; reflexivity].
Qed.

Section SuccessMeansPersisted.
Context (env : Env) (platform : Platform).
Context (sendBarkNotification : string → string → string → M unit).
Context (sendChangeNotification : list CatalogItem → list CatalogItem → M unit).
Context (Hquiet : ∀ added removed,
           emits (λ e, isStoreWrite e = false)
             (sendChangeNotification added removed)).

Lemma engine_success_means_persisted :
  successMeansPersisted platform
    (Engine.runMonitoring env platform sendBarkNotification
       sendChangeNotification).
Proof.
  intros st r Hrun Hsucc.
  rewrite (surjective_run _ st) in Hrun at 1.
  remember ((Engine.runMonitoring env platform sendBarkNotification
               sendChangeNotification st).2) as st' eqn:Est'.
  assert (Hfull : Engine.runMonitoring env platform sendBarkNotification
                    sendChangeNotification st = (Returned r, st')).
  { rewrite (surjective_run _ st), <- Est'. cbn in Hrun. rewrite Hrun.
    reflexivity. }
  clear Hrun Est'. unfold Engine.runMonitoring in Hfull.
  apply tryCatch_returned in Hfull as [Hbody | (e & st1 & _ & Hh)].
  2: { exfalso.
       apply bind_returned in Hh as (? & ? & _ & Hh).
       apply bind_returned in Hh as (? & ? & _ & Hh).
       apply bind_returned in Hh as (? & ? & _ & Hh).
       apply bind_returned in Hh as (? & ? & _ & Hh).
       injection Hh as <- _. discriminate Hsucc. }
  apply bind_returned in Hbody as (? & s1 & _ & Hbody).
  apply bind_returned in Hbody as (items & s2 & Hfetch & Hbody).
  destruct (Nat.eqb (length items) 0) eqn:Elen; [discriminate Hbody |].
  apply bind_returned in Hbody as (prev & s3 & Hprev & Hbody).
  apply bind_returned in Hbody as (stamp & s4 & Hstamp & Hbody).
  apply bind_returned in Hbody as ([] & s5 & Hstore & Hbody).
  apply bind_returned in Hbody as ([] & s6 & Hdetect & Hbody).
  apply bind_returned in Hbody as ([] & s7 & Hlog & Hbody).
  apply bind_returned in Hbody as (finished & s8 & Hfin & Hbody).
  injection Hbody as <- <-.
  assert (Hne : items ≠ []).
  { intros ->. discriminate Elen. }
  destruct (fetchOpenRouterModels_returned _ _ _ _ _ Hfetch Hne)
    as (status & statusText & Hreply).
  apply storeModelsData_returned in Hstore.
  assert (Hkv6 : kv s6 = kv s5).
  { assert (Hem : emits (λ e, isStoreWrite e = false)
                    (match Engine.previousFree prev with
                     | Some previousFreeModels =>
                         Engine.detectAndNotifyChanges sendChangeNotification
                           previousFreeModels (identifyFreeModels items)
                     | None => ret ()
                     end)).
    { destruct (Engine.previousFree prev);
        [| apply emits_ret].
      unfold Engine.detectAndNotifyChanges.
      apply emits_bind; [apply emits_emit; reflexivity |].
      intros _. cbn zeta.
      destruct (_ || _); [apply Hquiet | apply emits_ret]. }
    pose proof (emits_no_write_kv _ s5 Hem) as Hk.
    rewrite Hdetect in Hk. exact Hk. }
  assert (Hkv8 : kv s8 = kv s6).
  { unfold console, emit in Hlog. injection Hlog as <-.
    unfold dateNow in Hfin. injection Hfin as _ <-. reflexivity. }
  exists {| timestamp := stamp; totalModels := length items;
            freeModels := identifyFreeModels items; allModels := items |},
    finished, status, statusText.
  split; [reflexivity |]. split; [exact Hreply |].
  split; [split; reflexivity |].
  rewrite Hkv8, Hkv6, Hstore. split.
  - rewrite lookup_insert_ne by discriminate. apply lookup_insert_eq.
  - apply lookup_insert_eq.
Qed.
End SuccessMeansPersisted.

(** ** Store writes of the notification methods *)

Lemma original_sendChange_quiet (platform : Platform)
    (added removed : list CatalogItem) :
  emits (λ e, isStoreWrite e = false)
    (Original.sendChangeNotification platform added removed).
Proof. emits_auto; reflexivity. Qed.

Lemma revised_sendChange_quiet (platform : Platform)
    (added removed : list CatalogItem) :
  emits (λ e, isStoreWrite e = false)
    (Revised.sendChangeNotification platform added removed).
Proof. emits_auto; reflexivity. Qed.

(** X1.  In both revisions of the monitor, a run whose response reports
    success has persisted what it reports: the store then holds, under
    [models_data], a snapshot of the list the catalog delivered, which
    satisfies the snapshot invariant and has the counts of the response,
    and, under [last_update], the timestamp of that snapshot. *)
Theorem success_means_persisted (env : Env) (platform : Platform) :
  successMeansPersisted platform (Original.runMonitoring env platform)
  ∧ successMeansPersisted platform (Revised.runMonitoring env platform).
Proof.
  split; apply engine_success_means_persisted.
  - apply original_sendChange_quiet.
  - apply revised_sendChange_quiet.
Qed.

(** ** Exceptions *)

Section NeverThrows.
Context {A B : Type}.

Lemma neverThrows_ret (a : A) : neverThrows (ret a).
Proof. intros st. eexists. reflexivity. Qed.

Lemma neverThrows_bind (m : M A) (k : A → M B) :
  neverThrows m → (∀ a, neverThrows (k a)) → neverThrows (bind m k).
Proof.
  intros Hm Hk st. unfold bind. destruct (Hm st) as (a & Ha).
  destruct (m st) as [[a' | e] st1]; [| discriminate Ha].
  apply Hk.
Qed.

Lemma neverThrows_tryCatch (body : M A) (handler : string → M A) :
  (∀ e, neverThrows (handler e)) → neverThrows (tryCatch body handler).
Proof.
  intros Hh st. unfold tryCatch.
  destruct (body st) as [[a | e] st1]; [eexists; reflexivity | apply Hh].
Qed.
End NeverThrows.

Lemma neverThrows_emit (e : Event) : neverThrows (emit e).
Proof. intros st. eexists. reflexivity. Qed.

Lemma neverThrows_getBarkUrl : neverThrows getBarkUrl.
Proof. intros st. eexists. reflexivity. Qed.

Lemma neverThrows_dateNow (platform : Platform) : neverThrows (dateNow platform).
Proof. intros st. eexists. reflexivity. Qed.

Ltac nothrow_step :=
  lazymatch goal with
  | |- neverThrows (bind _ _) => apply neverThrows_bind; [| intros ?]
  | |- neverThrows (tryCatch _ _) => apply neverThrows_tryCatch; intros ?
  | |- neverThrows (ret _) => apply neverThrows_ret
  | |- neverThrows (emit _) => apply neverThrows_emit
  | |- neverThrows (console _ _) => apply neverThrows_emit
  | |- neverThrows getBarkUrl => apply neverThrows_getBarkUrl
  | |- neverThrows (dateNow _) => apply neverThrows_dateNow
  | |- neverThrows (if ?b then _ else _) => destruct b
  | |- neverThrows (match ?x with _ => _ end) => destruct x
  end.

Lemma original_sendBark_neverThrows (platform : Platform)
    (title body category : string) :
  neverThrows (Original.sendBarkNotification platform title body category).
Proof. unfold Original.sendBarkNotification. repeat nothrow_step. Qed.

Lemma getPreviousModelsData_neverThrows (platform : Platform) :
  neverThrows (Engine.getPreviousModelsData platform).
Proof. unfold Engine.getPreviousModelsData. repeat nothrow_step. Qed.

Lemma getBarkUrlFromSettings_neverThrows (platform : Platform) :
  neverThrows (Revised.getBarkUrlFromSettings platform).
Proof. unfold Revised.getBarkUrlFromSettings. repeat nothrow_step. Qed.

Lemma settingsInterval_neverThrows (raw : option KvValue) (d : Z) :
  neverThrows (Worker.settingsInterval raw d).
Proof. unfold Worker.settingsInterval. repeat nothrow_step. Qed.

(** X2.  No exception escapes [runMonitoring] of src/worker/monitor.js, the
    fetch handler (for every path, whatever the web interface does), the
    scheduled handler, [getPreviousModelsData] or [getBarkUrlFromSettings]:
    in every state and on every platform each of them returns a value. *)
Theorem handlers_never_throw (env : Env) (platform : Platform)
    (webInterface : WebCall → M Response) (path : string) :
  neverThrows (Original.runMonitoring env platform)
  ∧ neverThrows (Worker.fetch env platform webInterface path)
  ∧ neverThrows (Worker.scheduled env platform)
  ∧ neverThrows (Engine.getPreviousModelsData platform)
  ∧ neverThrows (Revised.getBarkUrlFromSettings platform).
Proof.
  split_and!.
  - unfold Original.runMonitoring, Engine.runMonitoring.
    apply neverThrows_tryCatch. intros e.
    repeat nothrow_step. apply original_sendBark_neverThrows.
  - unfold Worker.fetch. repeat nothrow_step.
  - unfold Worker.scheduled. repeat nothrow_step.
  - apply getPreviousModelsData_neverThrows.
  - apply getBarkUrlFromSettings_neverThrows.
Qed.

(** ** The instance field [this.barkUrl] *)

Section KeepsBarkUrl.
Context {A B : Type}.

Lemma keepsBarkUrl_ret (a : A) : keepsBarkUrl (ret a).
Proof. intros st. reflexivity. Qed.

Lemma keepsBarkUrl_throw (message : string) : keepsBarkUrl (@throw A message).
Proof. intros st. reflexivity. Qed.

Lemma keepsBarkUrl_bind (m : M A) (k : A → M B) :
  keepsBarkUrl m → (∀ a, keepsBarkUrl (k a)) → keepsBarkUrl (bind m k).
Proof.
  intros Hm Hk st. unfold bind. specialize (Hm st).
  destruct (m st) as [[a | e] st1]; cbn [snd] in *; [| exact Hm].
  rewrite Hk. exact Hm.
Qed.

Lemma keepsBarkUrl_tryCatch (body : M A) (handler : string → M A) :
  keepsBarkUrl body → (∀ e, keepsBarkUrl (handler e)) →
  keepsBarkUrl (tryCatch body handler).
Proof.
  intros Hm Hk st. unfold tryCatch. specialize (Hm st).
  destruct (body st) as [[a | e] st1]; cbn [snd] in *; [exact Hm |].
  rewrite Hk. exact Hm.
Qed.
End KeepsBarkUrl.

Lemma keepsBarkUrl_emit (e : Event) : keepsBarkUrl (emit e).
Proof. intros st. reflexivity. Qed.

Lemma keepsBarkUrl_getBarkUrl : keepsBarkUrl getBarkUrl.
Proof. intros st. reflexivity. Qed.

Lemma keepsBarkUrl_dateNow (platform : Platform) : keepsBarkUrl (dateNow platform).
Proof. intros st. reflexivity. Qed.

Lemma keepsBarkUrl_kvGet (platform : Platform) (key : string) :
  keepsBarkUrl (kvGet platform key).
Proof.
  intros st. unfold kvGet, bind, emit, throw.
  destruct (kvGetError platform key); reflexivity.
Qed.

Lemma keepsBarkUrl_kvPut (platform : Platform) (key : string) (v : KvValue) :
  keepsBarkUrl (kvPut platform key v).
Proof.
  intros st. unfold kvPut, throw. destruct (kvPutError platform key); reflexivity.
Qed.

Lemma keepsBarkUrl_fetchCatalog (platform : Platform) (a : bool) :
  keepsBarkUrl (fetchCatalog platform a).
Proof.
  intros st. unfold fetchCatalog, bind, emit, throw, ret.
  destruct (catalogReply platform); reflexivity.
Qed.

Lemma keepsBarkUrl_fetchBark (platform : Platform) (request : BarkRequest) :
  keepsBarkUrl (fetchBark platform request).
Proof.
  intros st. unfold fetchBark, bind, emit, throw, ret.
  destruct (barkReply platform request); reflexivity.
Qed.

Lemma keepsBarkUrl_jsonParse (v : KvValue) : keepsBarkUrl (jsonParse v).
Proof. intros st. destruct v; reflexivity. Qed.

Ltac keeps_step :=
  lazymatch goal with
  | |- keepsBarkUrl (bind _ _) => apply keepsBarkUrl_bind; [| intros ?]
  | |- keepsBarkUrl (tryCatch _ _) => apply keepsBarkUrl_tryCatch; [| intros ?]
  | |- keepsBarkUrl (ret _) => apply keepsBarkUrl_ret
  | |- keepsBarkUrl (throw _) => apply keepsBarkUrl_throw
  | |- keepsBarkUrl (emit _) => apply keepsBarkUrl_emit
  | |- keepsBarkUrl (console _ _) => apply keepsBarkUrl_emit
  | |- keepsBarkUrl getBarkUrl => apply keepsBarkUrl_getBarkUrl
  | |- keepsBarkUrl (dateNow _) => apply keepsBarkUrl_dateNow
  | |- keepsBarkUrl (kvGet _ _) => apply keepsBarkUrl_kvGet
  | |- keepsBarkUrl (kvPut _ _ _) => apply keepsBarkUrl_kvPut
  | |- keepsBarkUrl (fetchCatalog _ _) => apply keepsBarkUrl_fetchCatalog
  | |- keepsBarkUrl (fetchBark _ _) => apply keepsBarkUrl_fetchBark
  | |- keepsBarkUrl (jsonParse _) => apply keepsBarkUrl_jsonParse
  | |- keepsBarkUrl (if ?b then _ else _) => destruct b
  | |- keepsBarkUrl (match ?x with _ => _ end) => destruct x
  end.

Lemma revised_sendBark_keepsBarkUrl (platform : Platform)
    (title body category : string) :
  keepsBarkUrl (Revised.sendBarkNotification platform title body category).
Proof. unfold Revised.sendBarkNotification. repeat keeps_step. Qed.

Lemma original_sendBark_keepsBarkUrl (platform : Platform)
    (title body category : string) :
  keepsBarkUrl (Original.sendBarkNotification platform title body category).
Proof. unfold Original.sendBarkNotification. repeat keeps_step. Qed.

Lemma getBarkUrlFromSettings_keepsBarkUrl (platform : Platform) :
  keepsBarkUrl (Revised.getBarkUrlFromSettings platform).
Proof. unfold Revised.getBarkUrlFromSettings. repeat keeps_step. Qed.

(** The swap of [this.barkUrl] around the delivery is undone whether the
    delivery returns or throws. *)
Lemma revised_sendChange_keepsBarkUrl (platform : Platform)
    (added removed : list CatalogItem) :
  keepsBarkUrl (Revised.sendChangeNotification platform added removed).
Proof.
  intros st. unfold Revised.sendChangeNotification.
  unfold bind at 1. cbn [getBarkUrl].
  assert (Hswap : ∀ (u : option string) (s0 : State),
            barkUrl s0 = barkUrl st →
            barkUrl
              ((if negb (configured u)
                then console Log "Bark URL not configured, skipping notification"
                else
                  bind getBarkUrl
                    (λ originalBarkUrl,
                       bind (setBarkUrl u)
                         (λ _,
                            tryFinally
                              (Revised.sendBarkNotification platform
                                 "OpenRouter免费模型更新"
                                 (Revised.changeContent added removed) "update")
                              (setBarkUrl originalBarkUrl)))) s0).2
            = barkUrl st).
  { intros u s0 Hs0. destruct (negb (configured u)); [exact Hs0 |].
    unfold bind, getBarkUrl, setBarkUrl, tryFinally.
    destruct (Revised.sendBarkNotification _ _ _ _ _) as [r s1].
    destruct r; exact Hs0. }
  unfold bind at 1.
  destruct (configured (barkUrl st)).
  - cbn [ret]. apply Hswap. reflexivity.
  - pose proof (getBarkUrlFromSettings_keepsBarkUrl platform st) as Hk.
    destruct (Revised.getBarkUrlFromSettings platform st) as [[u | e] s0];
      cbn [snd] in Hk.
    + apply Hswap. exact Hk.
    + exact Hk.
Qed.

Lemma original_sendChange_keepsBarkUrl (platform : Platform)
    (added removed : list CatalogItem) :
  keepsBarkUrl (Original.sendChangeNotification platform added removed).
Proof.
  unfold Original.sendChangeNotification. repeat keeps_step.
  apply original_sendBark_keepsBarkUrl.
Qed.

Lemma engine_keepsBarkUrl (env : Env) (platform : Platform)
    (sendBark : string → string → string → M unit)
    (sendChange : list CatalogItem → list CatalogItem → M unit) :
  (∀ t b c, keepsBarkUrl (sendBark t b c)) →
  (∀ a r, keepsBarkUrl (sendChange a r)) →
  keepsBarkUrl (Engine.runMonitoring env platform sendBark sendChange).
Proof.
  intros Hb Hc.
  unfold Engine.runMonitoring, Engine.fetchOpenRouterModels,
    Engine.getPreviousModelsData, Engine.storeModelsData,
    Engine.detectAndNotifyChanges.
  repeat keeps_step; first [apply Hb | apply Hc].
Qed.

(** X3.  The revised [sendChangeNotification] leaves the instance field
    [this.barkUrl] as it found it, whether the notification is delivered,
    skipped or fails, and so does a whole run of either revision. *)
Theorem barkUrl_is_restored (env : Env) (platform : Platform)
    (added removed : list CatalogItem) :
  keepsBarkUrl (Revised.sendChangeNotification platform added removed)
  ∧ keepsBarkUrl (Revised.runMonitoring env platform)
  ∧ keepsBarkUrl (Original.runMonitoring env platform).
Proof.
  split_and!.
  - apply revised_sendChange_keepsBarkUrl.
  - apply engine_keepsBarkUrl.
    + apply revised_sendBark_keepsBarkUrl.
    + apply revised_sendChange_keepsBarkUrl.
  - apply engine_keepsBarkUrl.
    + apply original_sendBark_keepsBarkUrl.
    + apply original_sendChange_keepsBarkUrl.
Qed.

(** ** Read endpoints *)

Ltac web_unfold :=
  unfold Web.getModelsApi, Web.getFreeModelsApi, Web.getStatus,
    Web.testBarkNotification, BarkTest.testBarkNotification, Web.noData.

Lemma getModelsApi_stored (platform : Platform) (st : State) (s : Snapshot) :
  kvGetError platform "models_data" = None →
  kv st !! "models_data" = Some (KvSnapshot s) →
  (Web.getModelsApi platform st).1
  = Returned {| apiStatus := 200;
                apiBody := ApiModels (allModels s) (Some (timestamp s))
                             (totalModels s) |}.
Proof.
  intros Hget Hkv. web_unfold. run_unfold. rewrite Hget. cbn. rewrite Hkv.
  reflexivity.
Qed.

Lemma getFreeModelsApi_stored (platform : Platform) (st : State) (s : Snapshot) :
  kvGetError platform "models_data" = None →
  kv st !! "models_data" = Some (KvSnapshot s) →
  (Web.getFreeModelsApi platform st).1
  = Returned {| apiStatus := 200;
                apiBody := ApiModels (freeModels s) (Some (timestamp s))
                             (length (freeModels s)) |}.
Proof.
  intros Hget Hkv. web_unfold. run_unfold. rewrite Hget. cbn. rewrite Hkv.
  reflexivity.
Qed.

Lemma getStatus_stored (platform : Platform) (st : State) (s : Snapshot) :
  kvGetError platform "models_data" = None →
  kvGetError platform "last_update" = None →
  kv st !! "models_data" = Some (KvSnapshot s) →
  kv st !! "last_update" = Some (KvTime (timestamp s)) →
  (Web.getStatus platform st).1
  = Returned {| apiStatus := 200;
                apiBody := ApiStatus (Some (KvTime (timestamp s))) true
                             (Some (totalModels s, length (freeModels s))) |}.
Proof.
  intros Hget Hget' Hkv Hkv'. web_unfold. run_unfold. rewrite Hget, Hget'. cbn.
  rewrite Hkv, Hkv'. reflexivity.
Qed.

(** X4.  After a run of the revised monitor that reports success, the read
    endpoints serve what the run reported: [getModelsApi] the list the
    catalog delivered, [getFreeModelsApi] its free items, and [getStatus]
    the two counts of the response with the timestamp of the snapshot. *)
Theorem api_serves_what_the_run_reported
    (env : Env) (platform reader : Platform) (st : State) (r : Response) :
  (Revised.runMonitoring env platform st).1 = Returned r →
  success r = Some true →
  kvGetError reader "models_data" = None →
  kvGetError reader "last_update" = None →
  let after := (Revised.runMonitoring env platform st).2 in
  ∃ items stamp finished status statusText,
    catalogReply platform = Reply status statusText (JsonObject (Some items))
    ∧ body r = RunSucceeded (length items) (length (identifyFreeModels items))
                 finished
    ∧ (Web.getModelsApi reader after).1
      = Returned {| apiStatus := 200;
                    apiBody := ApiModels items (Some stamp) (length items) |}
    ∧ (Web.getFreeModelsApi reader after).1
      = Returned {| apiStatus := 200;
                    apiBody := ApiModels (identifyFreeModels items) (Some stamp)
                                 (length (identifyFreeModels items)) |}
    ∧ (Web.getStatus reader after).1
      = Returned {| apiStatus := 200;
                    apiBody := ApiStatus (Some (KvTime stamp)) true
                                 (Some (length items,
                                        length (identifyFreeModels items))) |}.
Proof.
  intros Hrun Hsucc Hget Hget' after.
  destruct (engine_success_means_persisted env platform _ _
              (revised_sendChange_quiet platform) st r Hrun Hsucc)
    as (s & finished & status & statusText & -> & Hreply & [Hfree Htotal]
        & Hdata & Hupd).
  exists (allModels s), (timestamp s), finished, status, statusText.
  split; [exact Hreply |].
  split; [cbn; rewrite Htotal, Hfree; reflexivity |].
  split_and!.
  - rewrite (getModelsApi_stored reader after s Hget Hdata), Htotal.
    reflexivity.
  - rewrite (getFreeModelsApi_stored reader after s Hget Hdata), Hfree.
    reflexivity.
  - rewrite (getStatus_stored reader after s Hget Hget' Hdata Hupd).
    rewrite Htotal, Hfree. reflexivity.
Qed.

Lemma api_serves_what_the_run_reported_witness :
  let after := (Revised.runMonitoring sampleEnv catalogUp emptyState).2 in
  ∃ items stamp finished status statusText,
    catalogReply catalogUp = Reply status statusText (JsonObject (Some items))
    ∧ body {| status := 200; body := RunSucceeded 2 1 1700000000001 |}
      = RunSucceeded (length items) (length (identifyFreeModels items))
          finished
    ∧ (Web.getModelsApi catalogUp after).1
      = Returned {| apiStatus := 200;
                    apiBody := ApiModels items (Some stamp) (length items) |}
    ∧ (Web.getFreeModelsApi catalogUp after).1
      = Returned {| apiStatus := 200;
                    apiBody := ApiModels (identifyFreeModels items) (Some stamp)
                                 (length (identifyFreeModels items)) |}
    ∧ (Web.getStatus catalogUp after).1
      = Returned {| apiStatus := 200;
                    apiBody := ApiStatus (Some (KvTime stamp)) true
                                 (Some (length items,
                                        length (identifyFreeModels items))) |}.
Proof.
  apply (api_serves_what_the_run_reported sampleEnv catalogUp catalogUp
           emptyState {| status := 200;
                         body := RunSucceeded 2 1 1700000000001 |});
    vm_compute; reflexivity.
Defined.

Lemma read_endpoints_quiet (platform : Platform) :
  emits (λ e, isQuiet e = true) (Web.getModelsApi platform)
  ∧ emits (λ e, isQuiet e = true) (Web.getFreeModelsApi platform)
  ∧ emits (λ e, isQuiet e = true) (Web.getStatus platform).
Proof.
  split_and!; web_unfold; unfold Web.present; repeat emits_step; reflexivity.
Qed.

Lemma read_endpoints_neverThrow (platform : Platform) :
  neverThrows (Web.getModelsApi platform)
  ∧ neverThrows (Web.getFreeModelsApi platform)
  ∧ neverThrows (Web.getStatus platform).
Proof. split_and!; web_unfold; repeat nothrow_step. Qed.

(** X5.  The read endpoints [getModelsApi], [getFreeModelsApi] and
    [getStatus] always answer and never change the store.  Without a stored
    snapshot the two model endpoints answer 404; when the read of
    [models_data] is rejected, [getModelsApi] and [getStatus] answer 500
    with the message of the first read that failed. *)
Theorem read_endpoints_read_only (platform : Platform) (st : State) :
  (neverThrows (Web.getModelsApi platform)
   ∧ neverThrows (Web.getFreeModelsApi platform)
   ∧ neverThrows (Web.getStatus platform))
  ∧ kv (Web.getModelsApi platform st).2 = kv st
  ∧ kv (Web.getFreeModelsApi platform st).2 = kv st
  ∧ kv (Web.getStatus platform st).2 = kv st
  ∧ (kvGetError platform "models_data" = None →
     Web.present (kv st !! "models_data") = None →
     (Web.getModelsApi platform st).1 = Returned Web.noData
     ∧ (Web.getFreeModelsApi platform st).1 = Returned Web.noData)
  ∧ (∀ message,
       kvGetError platform "models_data" = Some message →
       (Web.getModelsApi platform st).1
       = Returned {| apiStatus := 500;
                     apiBody := ApiError "Failed to retrieve models data"
                                  message |}
       ∧ (Web.getStatus platform st).1
         = Returned {| apiStatus := 500; apiBody := ApiStatusError
              (default message (kvGetError platform "last_update")) |}).
Proof.
  destruct (read_endpoints_quiet platform) as (Q1 & Q2 & Q3).
  assert (Hkv : ∀ (m : M ApiResponse),
            emits (λ e, isQuiet e = true) m → kv (m st).2 = kv st).
  { intros m Hm. apply emits_no_write_kv. intros s0.
    destruct (Hm s0) as (evs & T & K & F). exists evs.
    repeat split; auto. eapply Forall_impl; [exact F |].
    intros e He. unfold isQuiet in He.
    destruct (isStoreWrite e); [| reflexivity].
    rewrite andb_false_r in He. discriminate He. }
  split; [apply read_endpoints_neverThrow |].
  split; [apply Hkv, Q1 |]. split; [apply Hkv, Q2 |]. split; [apply Hkv, Q3 |].
  split.
  - intros Hget Hnone. web_unfold. run_unfold. rewrite Hget. cbn.
    unfold Web.present in Hnone.
    destruct (kv st !! "models_data") as [raw |]; [| split; reflexivity].
    destruct (kvTruthy raw) eqn:Et; [discriminate Hnone |].
    unfold kvTruthy in Et. rewrite Et. split; reflexivity.
  - intros message Hget. web_unfold. run_unfold. rewrite Hget. cbn.
    split; [reflexivity |].
    destruct (kvGetError platform "last_update"); reflexivity.
Qed.

Lemma read_endpoints_read_only_witness :
  ((Web.getModelsApi catalogUp emptyState).1 = Returned Web.noData
   ∧ (Web.getFreeModelsApi catalogUp emptyState).1 = Returned Web.noData)
  ∧ (Web.getModelsApi storeDown previousState).1
    = Returned {| apiStatus := 500;
                  apiBody := ApiError "Failed to retrieve models data"
                               "KV unavailable" |}.
Proof.
  split.
  - destruct (read_endpoints_read_only catalogUp emptyState)
      as (_ & _ & _ & _ & H & _).
    apply H; reflexivity.
  - destruct (read_endpoints_read_only storeDown previousState)
      as (_ & _ & _ & _ & _ & H).
    apply (H "KV unavailable"). reflexivity.
Defined.

(** ** Notification targets *)

Lemma length_append (a b : string) :
  String.length (a ++ b) = (String.length a + String.length b)%nat.
Proof.
  induction a as [|c a IH]; [reflexivity |].
  change (S (String.length (a ++ b)) = S (String.length a + String.length b)).
  f_equal. exact IH.
Qed.

Lemma substring_end (a : string) (c : ascii) :
  substring (String.length a) 1 (a ++ String c "") = String c "".
Proof. induction a as [|x a IH]; [reflexivity | exact IH]. Qed.

Lemma endsWith_append_slash (a : string) : endsWith (a ++ "/") "/" = true.
Proof.
  unfold endsWith. rewrite length_append. cbn [String.length].
  replace (String.length a + 1 - 1)%nat with (String.length a) by lia.
  replace (Nat.leb 1 (String.length a + 1)) with true
    by (symmetry; apply Nat.leb_le; lia).
  rewrite substring_end. reflexivity.
Qed.

Lemma withSlash_endsWith (u : string) : endsWith (withSlash u) "/" = true.
Proof.
  unfold withSlash. destruct (endsWith u "/") eqn:E;
    [exact E | apply endsWith_append_slash].
Qed.

(** X6.  Every call a run of the revised monitor makes to the notification
    target goes to a base address that ends with a slash. *)
Theorem revised_targets_end_with_slash (env : Env) (platform : Platform)
    (st : State) :
  ∃ evs,
    trace (Revised.runMonitoring env platform st).2 = (evs ++ trace st)%list
    ∧ ∀ request, In (EvFetchBark request) evs →
                 endsWith (target request) "/" = true.
Proof.
  assert (H : emits (λ e, ∀ request, e = EvFetchBark request →
                                     endsWith (target request) "/" = true)
                (Revised.runMonitoring env platform)).
  { emits_auto.
    all: intros request Heq; first [discriminate Heq | idtac].
    all: injection Heq as <-; apply withSlash_endsWith. }
  destruct (H st) as (evs & T & _ & F).
  exists evs. split; [exact T |].
  intros request Hin. rewrite Forall_forall in F.
  exact (F _ (proj2 (list_elem_of_In _ _) Hin) request eq_refl).
Qed.

(** [crunch] with the message builders kept folded. *)
Ltac crunch_send :=
  repeat (cbn -[pretty Revised.changeContent Original.changeMessage maskKey];
          match goal with
          | H : ?x = _ |- context [match ?x with _ => _ end] => rewrite H
          | |- context [match ?x with _ => _ end] =>
              lazymatch x with
              | context [match _ with _ => _ end] => fail
              | _ => let a := bool_atom x in destruct a eqn:?
              end
          end);
  cbn -[pretty Revised.changeContent Original.changeMessage maskKey].


(** X8.  [testBarkNotification] delivers to the target saved in the
    settings, whatever [this.barkUrl] holds, and changes neither
    [this.barkUrl] nor the store; the result it returns shows that target
    with its key masked.  Without a saved target it makes no call and
    throws. *)
Theorem test_notification_uses_settings (platform : Platform) (st : State) :
  let run := BarkTest.testBarkNotification platform in
  barkUrl (run st).2 = barkUrl st
  ∧ kv (run st).2 = kv st
  ∧ ∃ evs,
      trace (run st).2 = (evs ++ trace st)%list
      ∧ match testTarget platform st with
        | Some u =>
            notifications evs
            = [EvFetchBark {| target := withSlash u;
                              title := "OpenRouter免费模型更新";
                              content := Revised.changeContent mockAddedModels
                                           mockRemovedModels;
                              category := "update" |}]
            ∧ (∀ result, (run st).1 = Returned result →
                         testBarkUrl result = maskKey u)
        | None =>
            notifications evs = []
            ∧ (run st).1 = Thrown "Bark API URL 未配置，请在设置中配置"
        end.
Proof.
  intros run. subst run.
  unfold testTarget, settingsTarget, withSlash.
  unfold BarkTest.testBarkNotification, Revised.sendChangeNotification.
  run_unfold.
  crunch_send.
  all: try (cbn in *; congruence).
  all: split; [reflexivity |]; split; [reflexivity |].
  all: eexists; split; [trace_frame |];
       cbn -[Revised.changeContent maskKey];
       repeat split;
       solve [ reflexivity
             | intros; discriminate
             | intros ? [= <-]; reflexivity ].
Qed.

(** ** Masking the key in the test result *)

Lemma list_ascii_of_string_append (a b : string) :
  list_ascii_of_string (a ++ b)
  = (list_ascii_of_string a ++ list_ascii_of_string b)%list.
Proof.
  induction a as [|c a IH]; [reflexivity |].
  change (c :: list_ascii_of_string (a ++ b)
          = c :: (list_ascii_of_string a ++ list_ascii_of_string b)%list).
  f_equal. exact IH.
Qed.

Lemma string_of_list_ascii_app (l1 l2 : list ascii) :
  string_of_list_ascii (l1 ++ l2)%list
  = string_of_list_ascii l1 ++ string_of_list_ascii l2.
Proof.
  induction l1 as [|c l1 IH]; [reflexivity |].
  change (String c (string_of_list_ascii (l1 ++ l2)%list)
          = String c (string_of_list_ascii l1 ++ string_of_list_ascii l2)).
  f_equal. exact IH.
Qed.

Lemma takeSegment_segment (segment rest : list ascii) :
  Forall (λ c, c ≠ "/"%char) segment →
  takeSegment (segment ++ "/"%char :: rest)%list = (segment, "/"%char :: rest).
Proof.
  induction 1 as [|c segment Hc _ IH]; [reflexivity |].
  cbn [app takeSegment]. rewrite IH.
  destruct (Ascii.eqb_spec c "/"); [contradiction | reflexivity].
Qed.

(** X9.  Masking hides the key: a last path segment that is not empty and
    is closed by a slash is replaced by [****], the text before it is kept;
    an address that does not end with a slash is returned unchanged. *)
Theorem maskKey_hides_only_a_closed_segment :
  (∀ prefix key,
     key ≠ "" →
     Forall (λ c, c ≠ "/"%char) (list_ascii_of_string key) →
     maskKey (prefix ++ "/" ++ key ++ "/") = prefix ++ "/****/")
  ∧ (∀ url, (∀ prefix, url ≠ prefix ++ "/") → maskKey url = url).
Proof.
  split.
  - intros prefix key Hne Hkey. unfold maskKey.
    rewrite !list_ascii_of_string_append. cbn [list_ascii_of_string app].
    rewrite rev_app_distr. cbn [rev app].
    rewrite rev_app_distr. cbn [rev app].
    rewrite <- app_assoc. cbn [app].
    rewrite takeSegment_segment by (apply Forall_rev; exact Hkey).
    destruct (rev (list_ascii_of_string key)) as [|c l] eqn:E.
    + exfalso. apply Hne.
      rewrite <- (string_of_list_ascii_of_string key).
      rewrite <- (rev_involutive (list_ascii_of_string key)), E. reflexivity.
    + rewrite rev_involutive, string_of_list_ascii_of_string. reflexivity.
  - intros url Hno. unfold maskKey.
    destruct (rev (list_ascii_of_string url)) as [|c before] eqn:E;
      [reflexivity |].
    destruct (Ascii.eqb_spec c "/") as [-> | Hc].
    + exfalso. apply (Hno (string_of_list_ascii (rev before))).
      rewrite <- (string_of_list_ascii_of_string url) at 1.
      rewrite <- (rev_involutive (list_ascii_of_string url)), E.
      cbn [rev]. rewrite string_of_list_ascii_app. reflexivity.
    + destruct c as [[] [] [] [] [] [] [] []]; try reflexivity.
      contradiction.
Qed.

Lemma maskKey_hides_only_a_closed_segment_witness :
  maskKey ("https://api.day.app" ++ "/" ++ "KEY" ++ "/")
  = "https://api.day.app" ++ "/****/".
Proof.
  apply (proj1 maskKey_hides_only_a_closed_segment "https://api.day.app" "KEY").
  - discriminate.
  - repeat constructor; discriminate.
Defined.

(** ** When the change detector stays silent *)

Lemma addedModels_nil (A B : list CatalogItem) :
  addedModels A B = [] ↔ idSet B ⊆ idSet A.
Proof.
  split.
  - intros Hnil i Hi. apply elem_of_idSet in Hi as (b & Hb & <-).
    destruct (decide (id b ∈ idSet A)) as [Hin | Hout]; [exact Hin |].
    exfalso. assert (Hadd : b ∈ addedModels A B).
    { unfold addedModels. apply list_elem_of_filter. auto. }
    rewrite Hnil in Hadd. inversion Hadd.
  - intros Hsub. destruct (addedModels A B) as [|x l] eqn:E; [reflexivity |].
    exfalso. assert (Hx : x ∈ addedModels A B) by (rewrite E; left).
    unfold addedModels in Hx. apply list_elem_of_filter in Hx as [Hout Hin].
    apply Hout, Hsub, elem_of_idSet. eauto.
Qed.

Lemma silent_iff (A B : list CatalogItem) :
  idSet A = idSet B ↔ addedModels A B = [] ∧ removedModels A B = [].
Proof.
  rewrite removedModels_swap, !addedModels_nil. split.
  - intros ->. split; reflexivity.
  - intros [H1 H2]. apply set_eq. intros i. split; [apply H2 | apply H1].
Qed.

(** X10.  The change detector finds nothing added and nothing removed
    exactly when the two lists have the same set of identifiers; in that
    case [detectAndNotifyChanges] only records its call, and otherwise it
    calls [sendChangeNotification] with the two differences. *)
Theorem detector_silent_iff_same_ids
    (sendChangeNotification : list CatalogItem → list CatalogItem → M unit)
    (A B : list CatalogItem) (st : State) :
  (idSet A = idSet B ↔ addedModels A B = [] ∧ removedModels A B = [])
  ∧ (idSet A = idSet B →
     Engine.detectAndNotifyChanges sendChangeNotification A B st
     = (Returned tt, entered A B st))
  ∧ (idSet A ≠ idSet B →
     Engine.detectAndNotifyChanges sendChangeNotification A B st
     = sendChangeNotification (addedModels A B) (removedModels A B)
         (entered A B st)).
Proof.
  split; [apply silent_iff |].
  unfold Engine.detectAndNotifyChanges, bind, emit, entered. cbn zeta.
  split.
  - intros Hsame. apply silent_iff in Hsame as [-> ->]. reflexivity.
  - intros Hdiff.
    destruct (addedModels A B) as [|a la] eqn:Ea;
      destruct (removedModels A B) as [|r lr] eqn:Er; try reflexivity.
    exfalso. apply Hdiff, silent_iff. auto.
Qed.

Lemma detector_silent_iff_same_ids_witness :
  Engine.detectAndNotifyChanges (Revised.sendChangeNotification catalogUp)
    [modelA; modelB] [modelBRenamed; modelA] emptyState
  = (Returned tt, entered [modelA; modelB] [modelBRenamed; modelA] emptyState).
Proof.
  apply (proj1 (proj2 (detector_silent_iff_same_ids
                         (Revised.sendChangeNotification catalogUp)
                         [modelA; modelB] [modelBRenamed; modelA]
                         emptyState))).
  vm_compute. reflexivity.
Defined.

(** ** An empty catalog *)

(** X11.  A catalog that answers successfully with no items, or without a
    [data] field, makes the run fail with the message "No models received
    from OpenRouter API": the store is neither read nor changed, and the
    response, when there is one, is a 500 carrying that message. *)
Theorem empty_catalog_is_an_error (env : Env) (platform : Platform) (st : State)
    (status : Z) (statusText : string) (data : option (list CatalogItem)) :
  catalogReply platform = Reply status statusText (JsonObject data) →
  statusOk status = true →
  default [] data = [] →
  (∃ failed evs,
     (Original.runMonitoring env platform st).1
     = Returned {| status := 500; body := RunFailed noModelsMessage failed |}
     ∧ trace (Original.runMonitoring env platform st).2 = (evs ++ trace st)%list
     ∧ storeReads evs = []
     ∧ kv (Original.runMonitoring env platform st).2 = kv st)
  ∧ (∃ evs,
       trace (Revised.runMonitoring env platform st).2 = (evs ++ trace st)%list
       ∧ storeReads evs = []
       ∧ kv (Revised.runMonitoring env platform st).2 = kv st
       ∧ ∀ r, (Revised.runMonitoring env platform st).1 = Returned r →
              ∃ failed,
                r = {| status := 500;
                       body := RunFailed noModelsMessage failed |}).
Proof.
  intros Hreply Hok Hempty. unfold noModelsMessage.
  assert (Hdata : ∀ items, data = Some items → items = [])
    by (intros items ->; exact Hempty).
  split; run_unfold; rewrite Hreply; cbn -[pretty]; rewrite Hok;
    destruct data as [[| item items] |];
    try (specialize (Hdata _ eq_refl); discriminate Hdata);
    crunch.
  all: try (cbn in *; congruence).
  all: first
         [ eexists _, _; split; [reflexivity |]; split; [trace_frame |];
           split; reflexivity
         | eexists; split; [trace_frame |]; split; [reflexivity |];
           split; [reflexivity |];
           first [ intros ? [= <-]; eexists; reflexivity
                 | intros; discriminate ] ].
Qed.

Lemma empty_catalog_is_an_error_witness :
  (∃ failed evs,
     (Original.runMonitoring sampleEnv emptyCatalog emptyState).1
     = Returned {| status := 500; body := RunFailed noModelsMessage failed |}
     ∧ trace (Original.runMonitoring sampleEnv emptyCatalog emptyState).2
       = (evs ++ trace emptyState)%list
     ∧ storeReads evs = []
     ∧ kv (Original.runMonitoring sampleEnv emptyCatalog emptyState).2
       = kv emptyState)
  ∧ (∃ evs,
       trace (Revised.runMonitoring sampleEnv emptyCatalog emptyState).2
       = (evs ++ trace emptyState)%list
       ∧ storeReads evs = []
       ∧ kv (Revised.runMonitoring sampleEnv emptyCatalog emptyState).2
         = kv emptyState
       ∧ ∀ r, (Revised.runMonitoring sampleEnv emptyCatalog emptyState).1
              = Returned r →
              ∃ failed,
                r = {| status := 500;
                       body := RunFailed noModelsMessage failed |}).
Proof.
  apply (empty_catalog_is_an_error sampleEnv emptyCatalog emptyState
           200 "OK" (Some [])); reflexivity.
Defined.

(** ** Saving and loading the snapshot *)

(** X12.  [storeModelsData] writes [models_data] and then [last_update] as
    two separate writes: when the first is rejected the store is unchanged;
    when only the second is rejected the new snapshot is stored beside the
    old [last_update], and the error is rethrown; when both succeed the
    store holds both. *)
Theorem snapshot_write_is_not_atomic (platform : Platform) (data : Snapshot)
    (st : State) :
  let saved := Engine.storeModelsData platform data st in
  (∀ message,
     kvPutError platform "models_data" = Some message →
     saved.1 = Thrown message ∧ kv saved.2 = kv st)
  ∧ (∀ message,
       kvPutError platform "models_data" = None →
       kvPutError platform "last_update" = Some message →
       saved.1 = Thrown message
       ∧ kv saved.2 = <["models_data" := KvSnapshot data]> (kv st)
       ∧ kv saved.2 !! "last_update" = kv st !! "last_update")
  ∧ (kvPutError platform "models_data" = None →
     kvPutError platform "last_update" = None →
     saved.1 = Returned tt
     ∧ kv saved.2 = <["last_update" := KvTime (timestamp data)]>
                      (<["models_data" := KvSnapshot data]> (kv st))).
Proof.
  intros saved. subst saved. split_and!.
  - intros message H. run_unfold. rewrite H. cbn. split; reflexivity.
  - intros message H1 H2. run_unfold. rewrite H1. cbn. rewrite H2. cbn.
    split; [reflexivity |]. split; [reflexivity |].
    apply lookup_insert_ne. discriminate.
  - intros H1 H2. run_unfold. rewrite H1. cbn. rewrite H2. cbn.
    split; reflexivity.
Qed.

Lemma snapshot_write_is_not_atomic_witness :
  (Engine.storeModelsData halfWrite sampleSnapshot previousState).1
  = Thrown "KV write failed"
  ∧ kv (Engine.storeModelsData halfWrite sampleSnapshot previousState).2
    = <["models_data" := KvSnapshot sampleSnapshot]> (kv previousState)
  ∧ kv (Engine.storeModelsData halfWrite sampleSnapshot previousState).2
      !! "last_update"
    = kv previousState !! "last_update".
Proof.
  apply (proj1 (proj2 (snapshot_write_is_not_atomic halfWrite sampleSnapshot
                         previousState)) "KV write failed");
    reflexivity.
Defined.



(** ** The scheduled handler: failures and acceptance *)

Ltac generalize_run env platform :=
  generalize (bind (Engine.newModelMonitor env)
      (λ _ : (),
         bind (Revised.runMonitoring env platform)
           (λ response : Response,
              if negb (statusOk (status response))
              then console Error "Scheduled monitoring run returned status"
              else ret ()))).

Ltac quiet_leaf :=
  eexists; split; [trace_frame |]; split; [repeat constructor | reflexivity].

(** X14.  When the store rejects one of the three reads of the scheduled
    handler, or the write of [last_monitor_trigger], the invocation makes
    no catalog fetch, no notification and no write. *)
Theorem scheduled_fails_closed (env : Env) (platform : Platform) (st : State) :
  is_Some (kvGetError platform "app_settings")
  ∨ is_Some (kvGetError platform "last_monitor_trigger")
  ∨ is_Some (kvGetError platform "last_update")
  ∨ is_Some (kvPutError platform "last_monitor_trigger") →
  ∃ evs,
    trace (Worker.scheduled env platform st).2 = (evs ++ trace st)%list
    ∧ Forall (λ e, isQuiet e = true) evs
    ∧ kv (Worker.scheduled env platform st).2 = kv st.
Proof.
  intros Hfail. unfold Worker.scheduled. generalize_run env platform.
  intros rest. sched_unfold.
  destruct Hfail as [[m H] | [[m H] | [[m H] | [m H]]]];
    crunch_sched; quiet_leaf.
Qed.

Lemma scheduled_fails_closed_witness :
  ∃ evs,
    trace (Worker.scheduled sampleEnv storeDown previousState).2
    = (evs ++ trace previousState)%list
    ∧ Forall (λ e, isQuiet e = true) evs
    ∧ kv (Worker.scheduled sampleEnv storeDown previousState).2
      = kv previousState.
Proof.
  apply (scheduled_fails_closed sampleEnv storeDown previousState).
  left. exists "KV unavailable". reflexivity.
Defined.

Lemma run_start {A B C : Type} (l : ConsoleLevel) (s : string) (e : Event)
    (F : unit → M A) (G : A → M B) (K : B → M C) (H : string → M C)
    (st : State) :
  tryCatch (bind (console l s) (λ _, bind (bind (bind (emit e) F) G) K)) H st
  = tryCatch (bind (bind (F tt) G) K) H
      {| kv := kv st; barkUrl := barkUrl st; ticks := ticks st;
         trace := e :: EvConsole l s :: trace st |}.
Proof. reflexivity. Qed.

Lemma revised_run_begins (env : Env) (platform : Platform) (st : State) :
  ∃ newer,
    trace (Revised.runMonitoring env platform st).2
    = (newer ++ runStart env ++ trace st)%list
    ∧ kv (Revised.runMonitoring env platform st).2 !! "last_monitor_trigger"
      = kv st !! "last_monitor_trigger".
Proof.
  unfold Revised.runMonitoring, Engine.runMonitoring,
    Engine.fetchOpenRouterModels, fetchCatalog.
  rewrite run_start.
  lazymatch goal with
  | |- context [trace (?R ?s2).2] =>
      assert (HR : emits (λ e, isThrottleAccess e = false) R)
        by (emits_auto; reflexivity);
      destruct (HR s2) as (er & T & Kv & F)
  end.
  cbn [trace kv] in T, Kv. exists er. split; [exact T |].
  rewrite Kv. apply replay_untouched. eapply Forall_impl; [exact F |].
  intros e He value ->. discriminate He.
Qed.

(** X15.  When the store works and the throttle test does not hold, the
    scheduled handler, after its reads, writes the clock reading under
    [last_monitor_trigger] and then starts the run with its catalog fetch;
    nothing before the write is a fetch, a write or a notification, and
    the store holds that clock reading when the handler returns. *)
Theorem scheduled_accepts (env : Env) (platform : Platform) (st : State) :
  kvGetError platform "app_settings" = None →
  kvGetError platform "last_monitor_trigger" = None →
  kvGetError platform "last_update" = None →
  kvPutError platform "last_monitor_trigger" = None →
  let now := clock platform (ticks st) in
  Worker.throttled now
    (Worker.lastRunOf [kv st !! "last_monitor_trigger"; kv st !! "last_update"])
    (effectiveIntervalMs env (kv st)) = false →
  ∃ newer older,
    trace (Worker.scheduled env platform st).2
    = (newer ++ runStart env
       ++ EvKvPut "last_monitor_trigger" (KvTime now) :: throttleReads
       ++ older ++ trace st)%list
    ∧ Forall (λ e, isQuiet e = true) older
    ∧ kv (Worker.scheduled env platform st).2 !! "last_monitor_trigger"
      = Some (KvTime now).
Proof.
  intros Hs Ht Hu Hp now. subst now. unfold effectiveIntervalMs.
  assert (Hrest : ∀ s2,
            ∃ newer,
              trace ((bind (Engine.newModelMonitor env)
                        (λ _ : (),
                           bind (Revised.runMonitoring env platform)
                             (λ response : Response,
                                if negb (statusOk (status response))
                                then console Error
                                       "Scheduled monitoring run returned status"
                                else ret ()))) s2).2
              = (newer ++ runStart env ++ trace s2)%list
              ∧ kv ((bind (Engine.newModelMonitor env)
                       (λ _ : (),
                          bind (Revised.runMonitoring env platform)
                            (λ response : Response,
                               if negb (statusOk (status response))
                               then console Error
                                      "Scheduled monitoring run returned status"
                               else ret ()))) s2).2 !! "last_monitor_trigger"
                = kv s2 !! "last_monitor_trigger").
  { intros s2. unfold bind, Engine.newModelMonitor, setBarkUrl.
    destruct (revised_run_begins env platform
                {| kv := kv s2; barkUrl := BARK_API_URL env;
                   ticks := ticks s2; trace := trace s2 |})
      as (newer & T & K). cbn [trace kv] in T, K.
    destruct (Revised.runMonitoring env platform _) as [[r | e] s3];
      cbn [snd] in *.
    - destruct (negb (statusOk (status r))); cbn.
      + exists (EvConsole Error "Scheduled monitoring run returned status"
                :: newer). rewrite T. split; [reflexivity | exact K].
      + exists newer. split; [exact T | exact K].
    - exists newer. split; [exact T | exact K]. }
  unfold Worker.scheduled. revert Hrest. generalize_run env platform.
  intros rest Hrest. sched_unfold. rewrite Hs. cbn.
  destruct (kv st !! "app_settings") as [[s | s | t | text] |] eqn:Eset.
  all: crunch_sched.
  all: try (intros; discriminate).
  all: intros _.
  all: match goal with
       | Hrest : ∀ s2, ∃ newer, trace (?f s2).2 = _ ∧ _,
         Hr : ?f ?s2 = (_, ?s0) |- _ =>
           destruct (Hrest s2) as (newer & T & K);
           rewrite Hr in T, K; cbn in T, K
       end.
  all: lazymatch goal with
       | |- ∃ newer older, ?x :: trace _ = _ ∧ _ =>
           eexists (x :: newer), _
       | |- _ => eexists newer, _
       end.
  all: split;
       [ rewrite T; cbn;
         repeat lazymatch goal with
                | |- ?a :: _ = ?a :: _ => apply (f_equal (cons a))
                | |- (?n ++ _)%list = (?n ++ _)%list => apply (f_equal (app n))
                end;
         trace_frame |].
  all: split; [repeat constructor | rewrite K; apply lookup_insert_eq].
Qed.

Lemma scheduled_accepts_witness :
  ∃ newer older,
    trace (Worker.scheduled sampleEnv catalogUp previousState).2
    = (newer ++ runStart sampleEnv
       ++ EvKvPut "last_monitor_trigger"
            (KvTime (clock catalogUp (ticks previousState)))
          :: throttleReads
       ++ older ++ trace previousState)%list
    ∧ Forall (λ e, isQuiet e = true) older
    ∧ kv (Worker.scheduled sampleEnv catalogUp previousState).2
        !! "last_monitor_trigger"
      = Some (KvTime (clock catalogUp (ticks previousState))).
Proof.
  apply (scheduled_accepts sampleEnv catalogUp previousState);
    vm_compute; reflexivity.
Defined.

(** ** Routing *)

Lemma eqb_of_not_in (path : string) (known : list string) (p : string) :
  ¬ In path known → In p known → String.eqb path p = false.
Proof.
  intros Hout Hin. apply String.eqb_neq. intros ->. exact (Hout Hin).
Qed.

(** X16.  Routing of the fetch handler: an unknown path under [/api/] is
    answered 404 without calling the web interface; any other unknown path
    is served by [serveWeb]; [/api/monitor/run] returns the response of the
    run, and an exception of the run becomes a 500 with its message. *)
Theorem fetch_routes (env : Env) (platform : Platform)
    (webInterface : WebCall → M Response) (path : string) (st : State) :
  let constructed :=
    {| kv := kv st; barkUrl := BARK_API_URL env; ticks := ticks st;
       trace := trace st |} in
  (¬ In path knownApiPaths →
   startsWith path "/api/" = true →
   Worker.fetch env platform webInterface path st
   = (Returned {| status := 404; body := PlainText "API endpoint not found" |},
      constructed))
  ∧ (¬ In path knownApiPaths →
     startsWith path "/api/" = false →
     ∀ r st', webInterface (ServeWeb path) constructed = (Returned r, st') →
              Worker.fetch env platform webInterface path st = (Returned r, st'))
  ∧ (∀ r st',
       Revised.runMonitoring env platform constructed = (Returned r, st') →
       Worker.fetch env platform webInterface "/api/monitor/run" st
       = (Returned r, st'))
  ∧ (∀ e st',
       Revised.runMonitoring env platform constructed = (Thrown e, st') →
       (Worker.fetch env platform webInterface "/api/monitor/run" st).1
       = Returned {| status := 500;
                     body := PlainText ("Internal server error: " ++ e) |}).
Proof.
  intros constructed.
  assert (Hk : ¬ In path knownApiPaths →
               ∀ p, In p knownApiPaths → String.eqb path p = false).
  { intros Hout p Hp. exact (eqb_of_not_in path knownApiPaths p Hout Hp). }
  split_and!.
  - intros Hout Hapi. specialize (Hk Hout).
    unfold Worker.fetch, tryCatch, bind, Engine.newModelMonitor, setBarkUrl.
    rewrite !Hk by (cbn; tauto). rewrite Hapi. reflexivity.
  - intros Hout Hapi r st' Hweb. specialize (Hk Hout).
    unfold Worker.fetch, tryCatch, bind, Engine.newModelMonitor, setBarkUrl.
    rewrite !Hk by (cbn; tauto). rewrite Hapi.
    fold constructed. rewrite Hweb. reflexivity.
  - intros r st' Hrun.
    unfold Worker.fetch, tryCatch, bind, Engine.newModelMonitor, setBarkUrl.
    cbn [String.eqb Ascii.eqb Bool.eqb]. fold constructed. rewrite Hrun.
    reflexivity.
  - intros e st' Hrun.
    unfold Worker.fetch, tryCatch, bind, Engine.newModelMonitor, setBarkUrl.
    cbn [String.eqb Ascii.eqb Bool.eqb]. fold constructed. rewrite Hrun.
    reflexivity.
Qed.

Lemma fetch_routes_witness :
  Worker.fetch sampleEnv catalogUp plainWeb "/api/unknown" emptyState
  = (Returned {| status := 404; body := PlainText "API endpoint not found" |},
     {| kv := kv emptyState; barkUrl := BARK_API_URL sampleEnv;
        ticks := ticks emptyState; trace := trace emptyState |}).
Proof.
  apply (proj1 (fetch_routes sampleEnv catalogUp plainWeb "/api/unknown"
                  emptyState)).
  - cbn. intuition discriminate.
  - reflexivity.
Defined.

(** ** Interval resolution *)

